(** * rld_to_mssql: text-parameter scanner and incremental MSSQL upload

    A shallow embedding of [rld_to_mssql_tools/txt_manager.py] and
    [rld_to_mssql_tools/db_manager.py].

    - Python [str] values are lists of Unicode code points.
    - A text file is the list of lines its iterator yields (each line
      keeps its line terminator).
    - A pandas [DataFrame] is a list of typed column labels and a list of
      rows.
    - The MSSQL database is an explicit store threaded through a small
      state-and-exception monad; every statement sent to it is recorded in
      a log. *)

From Stdlib Require Import ZArith NArith List Ascii String Lia Bool.
From stdpp Require Import base decidable option list gmap.

Local Open Scope Z_scope.

(** ** Python strings *)

Definition char := N.
Definition str := list char.

(** Code points of an ASCII literal. *)
Definition cp (s : string) : str :=
  map N_of_ascii (list_ascii_of_string s).

Definition SPACE : char := 32%N.
Definition UNDERSCORE : char := 95%N.
Definition COLON : char := 58%N.
Definition TAB : char := 9%N.
Definition LF : char := 10%N.
Definition CR : char := 13%N.

(** [str.isspace] on one code point (CPython's whitespace table). *)
Definition py_isspace (c : char) : bool :=
  (((9 <=? c) && (c <=? 13)) || ((28 <=? c) && (c <=? 32))
   || (c =? 133) || (c =? 160) || (c =? 5760)
   || ((8192 <=? c) && (c <=? 8202))
   || (c =? 8232) || (c =? 8233) || (c =? 8239) || (c =? 8287)
   || (c =? 12288))%N.

Fixpoint lstrip (s : str) : str :=
  match s with
  | [] => []
  | c :: s' => if py_isspace c then lstrip s' else s
  end.

Definition rstrip (s : str) : str := rev (lstrip (rev s)).

(** [s.strip()] *)
Definition strip (s : str) : str := rstrip (lstrip s).

Fixpoint prefixb (p s : str) : bool :=
  match p, s with
  | [], _ => true
  | _ :: _, [] => false
  | a :: p', b :: s' => (a =? b)%N && prefixb p' s'
  end.

(** [needle in s] *)
Fixpoint contains (needle s : str) : bool :=
  prefixb needle s ||
  match s with
  | [] => false
  | _ :: s' => contains needle s'
  end.

(** Left-to-right scan of [s.replace(old, new)] for a non-empty [old];
    [skip] counts the characters of the current occurrence that are still
    to be consumed. *)
Fixpoint replace_scan (old new : str) (skip : nat) (s : str) : str :=
  match s with
  | [] => []
  | c :: s' =>
      match skip with
      | S k => replace_scan old new k s'
      | O =>
          if prefixb old s
          then new ++ replace_scan old new (Nat.pred (length old)) s'
          else c :: replace_scan old new O s'
      end
  end.

(** [s.replace(old, new)]: every non-overlapping occurrence, leftmost
    first; an empty [old] matches before every character and at the end. *)
Definition py_replace (old new s : str) : str :=
  match old with
  | [] => new ++ flat_map (fun c => c :: new) s
  | _ :: _ => replace_scan old new O s
  end.

(** [s.split(sep)] for a one-character separator. *)
Fixpoint py_split (sep : char) (s : str) : list str :=
  match s with
  | [] => [[]]
  | c :: s' =>
      if (c =? sep)%N then [] :: py_split sep s'
      else match py_split sep s' with
           | [] => [[c]]
           | w :: ws => (c :: w) :: ws
           end
  end.

(** [re.sub(r'[\n\t\r]', '', s)] *)
Definition re_sub_ntr (s : str) : str :=
  List.filter (fun c => negb ((c =? LF) || (c =? TAB) || (c =? CR))%N) s.

(** ** pandas values and frames *)

Inductive dtype : Type :=
  | D_int64 | D_object | D_datetime64 | D_float64 | D_other.

(** A cell. Floats are kept as their bit pattern, time stamps as
    nanoseconds; cells are only ever compared for equality. *)
Inductive value : Type :=
  | VInt (z : Z)
  | VFloat (bits : Z)
  | VStr (s : str)
  | VStamp (ns : Z)
  | VNull.

#[global] Instance dtype_eq_dec : EqDecision dtype.
Proof. solve_decision. Defined.

#[global] Instance value_eq_dec : EqDecision value.
Proof. solve_decision. Defined.

Record DataFrame : Type := mkDataFrame {
  df_cols : list (str * dtype);
  df_rows : list (list value)
}.

(** [df.columns] *)
Definition columns (df : DataFrame) : list str := map fst (df_cols df).

(** [pd.DataFrame()] *)
Definition empty_DataFrame : DataFrame := mkDataFrame [] [].

(** [df.empty]: some axis has length zero. *)
Definition df_empty (df : DataFrame) : bool :=
  match df_cols df, df_rows df with
  | [], _ => true
  | _, [] => true
  | _, _ => false
  end.

(** Every row has one cell per column. *)
Definition df_wf (df : DataFrame) : Prop :=
  Forall (fun r => length r = length (df_cols df)) (df_rows df).

(** ** Python dictionaries (insertion ordered) *)

Definition py_dict := list (str * str).

Fixpoint dict_set (k v : str) (d : py_dict) : py_dict :=
  match d with
  | [] => [(k, v)]
  | (k', v') :: d' =>
      if decide (k' = k) then (k', v) :: d' else (k', v') :: dict_set k v d'
  end.

(** [dict(zip(keys, vals))] *)
Definition dict_zip (keys vals : list str) : py_dict :=
  fold_left (fun d kv => dict_set (fst kv) (snd kv) d) (combine keys vals) [].

(** [pd.DataFrame(d, index=[0])] for a dictionary of string scalars. *)
Definition DataFrame_of_dict (d : py_dict) : DataFrame :=
  mkDataFrame (map (fun kv => (fst kv, D_object)) d)
              [map (fun kv => VStr (snd kv)) d].

(** ** txt_manager.py *)

Record ParameterMatch : Type := mkMatch {
  row_num : Z;
  param_value : str
}.

(** The [for row_num, row_content in enumerate(my_file, row_num)] loop of
    [search_param_txt]. *)
Fixpoint search_lines (seached_param : str) (row_num : Z) (lines : list str)
  : ParameterMatch :=
  match lines with
  | [] => mkMatch (-1) []
  | row_content :: rest =>
      if contains seached_param row_content then
        let param_value := py_replace seached_param [] row_content in
        let param_value := strip param_value in
        let param_value := py_replace [SPACE] [UNDERSCORE] param_value in
        mkMatch row_num param_value
      else search_lines seached_param (row_num + 1) rest
  end.

Definition search_param_txt (doc : list str) (seached_param : str)
  : ParameterMatch :=
  search_lines seached_param 1 doc.

(** [param_split[0]] for [param_split = line.strip().split(':')]. *)
Definition param_split0 (line : str) : str :=
  hd [] (py_split COLON (strip line)).

(** The key appended to [dict_keys] for a line. *)
Definition line_key (line : str) : str := strip (param_split0 line).

(** The value appended to [dict_vals] for a line. *)
Definition line_value (line : str) : str :=
  let param_value := py_replace (param_split0 line ++ [COLON]) [] line in
  let param_value := strip param_value in
  let param_value := re_sub_ntr param_value in
  strip param_value.

(** [for _ in range(n): next(my_file)]; [None] is [StopIteration]. *)
Fixpoint skip_lines (n : nat) (lines : list str) : option (list str) :=
  match n, lines with
  | O, _ => Some lines
  | S _, [] => None
  | S n', _ :: rest => skip_lines n' rest
  end.

(** The [for line in my_file] loop of [get_params_from_txt]; [None] is
    the fall-through at the end of the file, where nothing is returned. *)
Fixpoint read_params (skip_rows skip_count : Z) (dict_keys dict_vals : list str)
    (lines : list str) : option DataFrame :=
  match lines with
  | [] => None
  | line :: rest =>
      if skip_count =? skip_rows then
        if decide (strip line = []) then
          Some (DataFrame_of_dict (dict_zip dict_keys dict_vals))
        else
          read_params skip_rows skip_count
            (dict_keys ++ [line_key line]) (dict_vals ++ [line_value line]) rest
      else read_params skip_rows (skip_count + 1) dict_keys dict_vals rest
  end.

(** The line the block starts at. *)
Definition start_row (doc : list str) (header : str) (param_line : Z) : Z :=
  if param_line =? 0 then row_num (search_param_txt doc header) else param_line.

(** [get_params_from_txt]; the result is [None] when the Python function
    returns nothing (end of file reached, or an exception such as
    [StopIteration] caught by its handler). *)
Definition get_params_from_txt (doc : list str) (header : str)
    (param_line skip_rows : Z) : option DataFrame :=
  let row_number := start_row doc header param_line in
  if (0 <? row_number) && (0 <=? skip_rows) then
    match skip_lines (Z.to_nat (row_number - 1)) doc with
    | None => None
    | Some rest => read_params skip_rows 0 [] [] rest
    end
  else Some empty_DataFrame.

(** ** pandas merge *)

Inductive merge_indicator : Type := left_only | both.

#[global] Instance merge_indicator_eq_dec : EqDecision merge_indicator.
Proof. solve_decision. Defined.

(** [pd.merge(left, right, on=..., how='left', indicator=True)], seen
    through the join key: a left row is repeated once per matching right
    key and tagged [both]; a left row without a match appears once, tagged
    [left_only]. Left order is kept. *)
Definition merge_left {A K : Type} `{EqDecision K}
    (key : A -> K) (left : list A) (right : list K)
  : list (A * merge_indicator) :=
  flat_map
    (fun a =>
       match List.filter (fun k => bool_decide (k = key a)) right with
       | [] => [(a, left_only)]
       | matches => map (fun _ => (a, both)) matches
       end)
    left.

(** [m.loc[m._merge == 'left_only', m.columns != '_merge']] *)
Definition keep_left_only {A : Type} (m : list (A * merge_indicator)) : list A :=
  map fst (List.filter (fun p => bool_decide (snd p = left_only)) m).

(** ** The relational store *)

Inductive sqltype : Type :=
  | T_Integer | T_String | T_DateTime | T_Float
  | T_SMALLINT | T_VARCHAR512 | T_DATETIME | T_FLOAT
  | T_BigInteger | T_Text.

Record column : Type := mkColumn {
  c_name : str;
  c_type : sqltype;
  c_pk : bool
}.

Record table : Type := mkTable {
  t_cols : list column;
  t_rows : list (list value)
}.

(** Statements sent to the database. *)
Inductive stmt : Type :=
  | Q_has_table (name : str)
  | Q_reflect
  | Q_select (name col : str)
  | Q_select_where (name col key_col : str) (key_value : value)
  | S_create_table (name : str) (cols : list column)
  | S_alter_add (name col : str) (ty : sqltype)
  | S_insert (name : str) (frame : DataFrame).

Record store : Type := mkStore {
  st_online : bool;
  st_tables : gmap str table;
  st_log : list stmt
}.

Inductive exn : Type :=
  | SQLAlchemyError | DatabaseError | KeyError | ValueError.

Inductive outcome (A : Type) : Type :=
  | Returned (a : A)
  | Raised (e : exn).
Arguments Returned {A} a.
Arguments Raised {A} e.

(** Computations on the store that may raise. *)
Definition M (A : Type) : Type := store -> outcome A * store.

Definition ret {A : Type} (a : A) : M A := fun st => (Returned a, st).

Definition raise {A : Type} (e : exn) : M A := fun st => (Raised e, st).

Definition bind {A B : Type} (m : M A) (k : A -> M B) : M B :=
  fun st =>
    match m st with
    | (Returned a, st') => k a st'
    | (Raised e, st') => (Raised e, st')
    end.

(** [try: body except Exception: handler] *)
Definition try_except {A : Type} (body : M A) (handler : exn -> M A) : M A :=
  fun st =>
    match body st with
    | (Returned a, st') => (Returned a, st')
    | (Raised e, st') => handler e st'
    end.

Notation "x <-- m ;; k" := (bind m (fun x => k))
  (at level 100, m at next level, right associativity).
Notation "m >>> k" := (bind m (fun _ => k))
  (at level 100, right associativity).

(** [for x in xs: body(x)] *)
Fixpoint for_each {A : Type} (body : A -> M unit) (xs : list A) : M unit :=
  match xs with
  | [] => ret tt
  | x :: xs' => body x >>> for_each body xs'
  end.

(** The store after one more statement was sent to it. *)
Definition logged (s : stmt) (st : store) : store :=
  mkStore (st_online st) (st_tables st) (st_log st ++ [s]).

(** The store after a table was created or replaced. *)
Definition with_table (name : str) (t : table) (st : store) : store :=
  mkStore (st_online st) (<[name := t]> (st_tables st)) (st_log st).

Definition issue (s : stmt) : M unit :=
  fun st => (Returned tt, logged s st).

Definition connect (e : exn) : M unit :=
  fun st => if st_online st then (Returned tt, st) else (Raised e, st).

Definition get_table (name : str) : M (option table) :=
  fun st => (Returned (st_tables st !! name), st).

Definition put_table (name : str) (t : table) : M unit :=
  fun st => (Returned tt, with_table name t st).

Fixpoint index_where {A : Type} (p : A -> bool) (l : list A) : option nat :=
  match l with
  | [] => None
  | x :: l' => if p x then Some O else option_map S (index_where p l')
  end.

(** [label] is a column label of a frame, and only once. *)
Definition find_label (label : str) (labels : list str) : exn + nat :=
  match index_where (fun c => bool_decide (c = label)) labels with
  | None => inl KeyError
  | Some i =>
      if bool_decide (label ∈ drop (S i) labels) then inl ValueError else inr i
  end.

Definition cell (i : nat) (row : list value) : value := nth i row VNull.

(** ** What pandas and the database decide *)

(** The one-column result of [pd.read_sql(...)[label]]. *)
Record Series : Type := mkSeries {
  s_name : str;
  s_dtype : dtype;
  s_values : list value
}.

(** The source hands four decisions to pandas, SQLAlchemy and the
    database, and its own text settles none of them:
    - [read_dtype]: the dtype [pd.read_sql] gives a column of the result,
      from the column's SQL type and the values read;
    - [merge_keys]: the two key columns as [pd.merge] compares them, the
      keys of the frame (dtype and values) and the keys read from the
      table (dtype and values), each as it is or converted to a type
      common to both; [None] when pandas does not take the two together
      and raises [ValueError];
    - [where_rows]: the rows the database selects for
      [WHERE [key_col] = {key_value}], where the value is pasted into the
      statement as Python formats it, without quotes; [None] when the
      database refuses the statement;
    - [to_sql_rows]: what [DataFrame.to_sql] returns (the number it
      reports, which may be missing) or raises, and the rows the table has
      gained by then. *)
Record Library : Type := mkLibrary {
  read_dtype : sqltype -> list value -> dtype;
  merge_keys :
    dtype -> list value -> dtype -> list value -> option (list value * list value);
  where_rows : table -> nat -> value -> option (list (list value));
  to_sql_rows : table -> DataFrame -> (exn + option Z) * list (list value)
}.

Section Store.

(** [str.upper]; the database compares identifiers the same way. *)
Variable upper : str -> str.

Variable lib : Library.

Definition same_ident (a b : str) : bool := bool_decide (upper a = upper b).

(** Position of the column an identifier refers to. *)
Definition resolve (cols : list column) (name : str) : option nat :=
  index_where (fun c => same_ident (c_name c) name) cols.

Definition distinct_idents (names : list str) : bool :=
  bool_decide (NoDup (map upper names)).

(** [SELECT [col] FROM t]: the column's own name and its values. *)
Definition table_select (t : table) (col : str) : option Series :=
  match resolve (t_cols t) col with
  | None => None
  | Some i =>
      match t_cols t !! i with
      | None => None
      | Some c =>
          let values := map (cell i) (t_rows t) in
          Some (mkSeries (c_name c) (read_dtype lib (c_type c) values) values)
      end
  end.

(** [SELECT [col] FROM t WHERE [key_col] = {key_value}] *)
Definition table_select_where (t : table) (col key_col : str) (key_value : value)
  : option Series :=
  match resolve (t_cols t) key_col with
  | None => None
  | Some k =>
      match where_rows lib t k key_value with
      | None => None
      | Some rows => table_select (mkTable (t_cols t) rows) col
      end
  end.

(** Positions of the primary-key columns. *)
Fixpoint pk_positions_from (i : nat) (cols : list column) : list nat :=
  match cols with
  | [] => []
  | c :: cols' =>
      if c_pk c then i :: pk_positions_from (S i) cols'
      else pk_positions_from (S i) cols'
  end.

Definition pk_positions (t : table) : list nat := pk_positions_from O (t_cols t).

Definition pk_of (t : table) (row : list value) : list value :=
  map (fun i => cell i row) (pk_positions t).

(** The row stored for a frame row: each table column takes the cell of
    the frame column that names it, NULL when there is none. *)
Definition store_row (t : table) (labels : list str) (row : list value)
  : list value :=
  map (fun c =>
         match index_where (fun l => same_ident l (c_name c)) labels with
         | Some j => cell j row
         | None => VNull
         end)
      (t_cols t).

(** The primary key admits the new rows after the old ones. *)
Definition pk_admits (t : table) (new_rows : list (list value)) : bool :=
  match pk_positions t with
  | [] => true
  | _ :: _ =>
      bool_decide (NoDup (map (pk_of t) (t_rows t ++ new_rows)))
      && forallb (fun r => negb (bool_decide (VNull ∈ pk_of t r))) new_rows
  end.

(** The table takes an INSERT of the frame. *)
Definition insert_accepted (t : table) (frame : DataFrame) : bool :=
  distinct_idents (columns frame)
  && forallb (fun l => bool_decide (is_Some (resolve (t_cols t) l))) (columns frame)
  && pk_admits t (map (store_row t (columns frame)) (df_rows frame)).

(** [insp.has_table(name)] *)
Definition has_table (name : str) : M bool :=
  issue (Q_has_table name) >>>
  connect SQLAlchemyError >>>
  t <-- get_table name ;;
  ret (bool_decide (is_Some t)).

(** [sa.Table(name, metadata, *cols); metadata.create_all(engine)] *)
Definition create_all (name : str) (cols : list column) : M unit :=
  issue (S_create_table name cols) >>>
  connect SQLAlchemyError >>>
  t <-- get_table name ;;
  match t with
  | Some _ => ret tt
  | None =>
      if distinct_idents (map c_name cols)
      then put_table name (mkTable cols [])
      else raise SQLAlchemyError
  end.

(** [metadata.reflect(bind=engine); metadata.tables[name].columns.keys()] *)
Definition reflect_columns (name : str) : M (list str) :=
  issue Q_reflect >>>
  connect SQLAlchemyError >>>
  t <-- get_table name ;;
  match t with
  | None => raise KeyError
  | Some t => ret (map c_name (t_cols t))
  end.

(** [cursor.execute("ALTER TABLE ... ADD [col] ty"); conn.commit()] *)
Definition alter_add (name col : str) (ty : sqltype) : M unit :=
  issue (S_alter_add name col ty) >>>
  connect DatabaseError >>>
  t <-- get_table name ;;
  match t with
  | None => raise DatabaseError
  | Some t =>
      match resolve (t_cols t) col with
      | Some _ => raise DatabaseError
      | None =>
          put_table name
            (mkTable (t_cols t ++ [mkColumn col ty false])
                     (map (fun r => r ++ [VNull]) (t_rows t)))
      end
  end.

(** [pd.read_sql("SELECT [col] FROM name")] *)
Definition read_sql_select (name col : str) : M Series :=
  issue (Q_select name col) >>>
  connect SQLAlchemyError >>>
  t <-- get_table name ;;
  match t with
  | None => raise SQLAlchemyError
  | Some t =>
      match table_select t col with
      | None => raise SQLAlchemyError
      | Some r => ret r
      end
  end.

(** [pd.read_sql("SELECT [col] FROM name WHERE [key_col] = {key_value}")] *)
Definition read_sql_select_where (name col key_col : str) (key_value : value)
  : M Series :=
  issue (Q_select_where name col key_col key_value) >>>
  connect SQLAlchemyError >>>
  t <-- get_table name ;;
  match t with
  | None => raise SQLAlchemyError
  | Some t =>
      match table_select_where t col key_col key_value with
      | None => raise SQLAlchemyError
      | Some r => ret r
      end
  end.

(** [frame[label]] on the one-column result of [pd.read_sql]. *)
Definition getitem (result : Series) (label : str) : M Series :=
  if bool_decide (s_name result = label) then ret result else raise KeyError.

(** Column types pandas picks when [to_sql] has to create the table. *)
Definition to_sql_type (d : dtype) : sqltype :=
  match d with
  | D_int64 => T_BigInteger
  | D_float64 => T_Float
  | D_datetime64 => T_DateTime
  | D_object | D_other => T_Text
  end.

(** [frame.to_sql(name, if_exists='append', index=False)]: the rows the
    table has gained stay, whether the call returns or raises. *)
Definition to_sql (name : str) (frame : DataFrame) : M (option Z) :=
  issue (S_insert name frame) >>>
  connect SQLAlchemyError >>>
  t <-- get_table name ;;
  let t :=
    match t with
    | Some t => t
    | None =>
        mkTable (map (fun c => mkColumn (fst c) (to_sql_type (snd c)) false)
                     (df_cols frame)) []
    end in
  let '(reported, appended) := to_sql_rows lib t frame in
  put_table name (mkTable (t_cols t) (t_rows t ++ appended)) >>>
  match reported with
  | inr num => ret num
  | inl e => raise e
  end.

(** ** db_manager.py *)

Definition create_type (d : dtype) : sqltype :=
  match d with
  | D_int64 => T_Integer
  | D_object => T_String
  | D_datetime64 => T_DateTime
  | D_float64 => T_Float
  | D_other => T_String
  end.

Definition alter_type (d : dtype) : sqltype :=
  match d with
  | D_int64 => T_SMALLINT
  | D_object => T_VARCHAR512
  | D_datetime64 => T_DATETIME
  | D_float64 => T_FLOAT
  | D_other => T_VARCHAR512
  end.

(** The columns of the left join of the frame's labels with the table's,
    both in upper case, that are [left_only]. *)
Definition new_columns (data_to_insert : DataFrame) (tbl_columns : list str)
  : list (str * dtype) :=
  keep_left_only
    (merge_left (fun c => upper (fst c)) (df_cols data_to_insert)
                (map upper tbl_columns)).

(** Body of the [try] block of [create_alter_mssql_table] (the
    [text_file_name] argument only changes log messages). *)
Definition create_alter_body (table_name : str) (data_to_insert : DataFrame)
    (pk_column : str) (pk_flag : bool) : M bool :=
  tbl_exist <-- has_table table_name ;;
  if negb (df_empty data_to_insert) then
    if negb tbl_exist then
      let mssql_cols :=
        map (fun c => mkColumn (fst c) (create_type (snd c)) false)
            (df_cols data_to_insert) in
      if bool_decide (pk_column ∈ columns data_to_insert) && pk_flag then
        let mssql_cols :=
          map (fun col =>
                 if bool_decide (c_name col = pk_column)
                 then mkColumn (c_name col) (c_type col) true
                 else col)
              mssql_cols in
        create_all table_name mssql_cols >>>
        ret true
      else if bool_decide (pk_column ∈ columns data_to_insert) && negb pk_flag then
        create_all table_name mssql_cols >>>
        ret true
      else ret false
    else
      tbl_columns <-- reflect_columns table_name ;;
      let lj_col_names := new_columns data_to_insert tbl_columns in
      (if (0 <? Z.of_nat (length lj_col_names)) then
         for_each
           (fun col_now => alter_add table_name (fst col_now) (alter_type (snd col_now)))
           lj_col_names
       else ret tt) >>>
      ret true
  else ret false.

(** [create_alter_mssql_table]: both handlers log and return [False]. *)
Definition create_alter_mssql_table (table_name : str) (data_to_insert : DataFrame)
    (pk_column : str) (pk_flag : bool) : M bool :=
  try_except (create_alter_body table_name data_to_insert pk_column pk_flag)
             (fun _ => ret false).

(** The dtype of the frame's column at a position. *)
Definition col_dtype (df : DataFrame) (j : nat) : dtype :=
  match df_cols df !! j with
  | Some c => snd c
  | None => D_other
  end.

(** Left join of the frame with the existing keys on column [on], keeping
    the [left_only] rows and the frame's own columns. [pd.merge] raises
    when the frame has no such column, or has it twice, and when it does
    not take the two key columns together; a row is matched through its
    key as pandas compares it. *)
Definition new_records (data_to_insert : DataFrame) (existing_tms : Series)
    (on : str) : M DataFrame :=
  match find_label on (columns data_to_insert) with
  | inl e => raise e
  | inr j =>
      match merge_keys lib
              (col_dtype data_to_insert j) (map (cell j) (df_rows data_to_insert))
              (s_dtype existing_tms) (s_values existing_tms) with
      | None => raise ValueError
      | Some (left_keys, right_keys) =>
          ret (mkDataFrame (df_cols data_to_insert)
                 (map fst
                    (keep_left_only
                       (merge_left snd (combine (df_rows data_to_insert) left_keys)
                          right_keys))))
      end
  end.

(** Body of the [try] block of [insert_data_msssql]. *)
Definition insert_body (table_name : str) (data_to_insert : DataFrame)
    (pk_column : str) (pk_value : value) (fk_column : str) : M (option Z) :=
  existing_tms <--
    (if bool_decide (fk_column = []) then
       r <-- read_sql_select table_name pk_column ;; getitem r pk_column
     else
       r <-- read_sql_select_where table_name fk_column pk_column pk_value ;;
       getitem r fk_column) ;;
  new_records <--
    (if bool_decide (fk_column = []) then
       new_records data_to_insert existing_tms pk_column
     else
       new_records data_to_insert existing_tms fk_column) ;;
  if 0 <? Z.of_nat (length (df_rows new_records)) then
    num_ins <-- to_sql table_name new_records ;;
    ret num_ins
  else ret (Some (-1)).

(** [insert_data_msssql]: the result is what [to_sql] returned, or -1;
    both handlers log and fall off the end of the function, and the
    caller receives [None] then. *)
Definition insert_data_msssql (table_name : str) (data_to_insert : DataFrame)
    (pk_column : str) (pk_value : value) (fk_column : str) : M (option Z) :=
  try_except (insert_body table_name data_to_insert pk_column pk_value fk_column)
             (fun _ => ret None).

End Store.

(** ** Notions used in the statements *)

(** [needle] occurs in [s]. *)
Definition is_substring (needle s : str) : Prop :=
  exists pre post, s = pre ++ needle ++ post.

Definition dict_keys_of (d : py_dict) : list str := map fst d.

(** [for k, v in kvs: d[k] = v] *)
Definition dict_update (d : py_dict) (kvs : list (str * str)) : py_dict :=
  fold_left (fun d kv => dict_set (fst kv) (snd kv) d) kvs d.

(** A line that is empty after trimming. *)
Definition blank (line : str) : Prop := strip line = [].

(** The lines the loop of [get_params_from_txt] reads once the start line
    is reached and [skip_rows] lines, the start line first, are passed
    over. *)
Definition lines_read (doc : list str) (row_number skip_rows : Z) : list str :=
  drop (Z.to_nat (row_number - 1) + Z.to_nat skip_rows) doc.



Definition alter_stmts (name : str) (cs : list (str * dtype)) : list stmt :=
  map (fun c => S_alter_add name (fst c) (alter_type (snd c))) cs.

(** Columns of the table created for a frame. *)
Definition base_cols (data : DataFrame) : list column :=
  map (fun c => mkColumn (fst c) (create_type (snd c)) false) (df_cols data).

Definition flag_pk (pk : str) (cols : list column) : list column :=
  map (fun col =>
         if bool_decide (c_name col = pk)
         then mkColumn (c_name col) (c_type col) true
         else col)
      cols.

Definition created_cols (data : DataFrame) (pk : str) (pk_flag : bool) : list column :=
  if pk_flag then flag_pk pk (base_cols data) else base_cols data.

(** The statement reading the existing keys. *)
Definition select_stmt (name pk : str) (pv : value) (fk : str) : stmt :=
  if bool_decide (fk = []) then Q_select name pk else Q_select_where name fk pk pv.


(** ** The specification's wording, for comparison *)

Fixpoint take_nonblank (lines : list str) : list str :=
  match lines with
  | [] => []
  | l :: rest => if decide (strip l = []) then [] else l :: take_nonblank rest
  end.

(** The block as the specification words it: the lines after the start
    line and after [skip_rows] further lines, up to the first blank one. *)
Definition spec_block (doc : list str) (start_line skip_rows : nat) : list str :=
  take_nonblank (drop (start_line + skip_rows) doc).

Definition remove_prefix (p s : str) : str :=
  if prefixb p s then drop (length p) s else s.

(** The value as the specification words it: the line without the prefix
    key and colon, trimmed, without tab, line feed and carriage return. *)
Definition spec_line_value (line : str) : str :=
  strip (re_sub_ntr (strip
    (remove_prefix (param_split0 line ++ [COLON]) (lstrip line)))).

(** ** Sample data *)

Definition ascii_upper_char (c : char) : char :=
  if ((97 <=? c) && (c <=? 122))%N then (c - 32)%N else c.

(** Upper case on the ASCII letters. *)
Definition ascii_upper (s : str) : str := map ascii_upper_char s.

(** A line of a text file. *)
Definition ln (s : string) : str := cp s ++ [LF].

Definition ex_doc : list str :=
  [ln "Export Parameters"; ln "Site Number: 42"; ln "Time: 12:30:00"; ln "";
   ln "Timestamp"].

Definition ex_dup_doc : list str :=
  [ln "A: 1"; ln "B: 2"; ln "B: 3"; ln "B: 4"; ln ""].

(** The frame read from [ex_dup_doc] from its first line on. *)
Definition ex_dup_frame : DataFrame :=
  mkDataFrame [(cp "A", D_object); (cp "B", D_object)]
              [[VStr (cp "1"); VStr (cp "4")]].

Definition ex_open_doc : list str :=
  [ln "Export Parameters"; ln "Site Number: 42"].

Definition ex_height_doc : list str :=
  [ln "Sensor History"; ln "Height: Boom Height: 10"; ln ""].

Definition ex_name : str := cp "NRG_Tower_SN_42".

Definition ex_pk : str := cp "Timestamp".

Definition ex_batch : DataFrame :=
  mkDataFrame [(cp "Timestamp", D_datetime64); (cp "Val1", D_int64)]
              [[VStamp 1; VInt 10]; [VStamp 2; VInt 20]].

Definition ex_empty_batch : DataFrame :=
  mkDataFrame [(cp "Timestamp", D_datetime64); (cp "Val1", D_int64)] [].

Definition ex_keyless_batch : DataFrame :=
  mkDataFrame [(cp "Val1", D_int64)] [[VInt 10]].

Definition ex_dup_batch : DataFrame :=
  mkDataFrame [(cp "Timestamp", D_datetime64); (cp "Val1", D_int64)]
              [[VStamp 1; VInt 10]; [VStamp 1; VInt 20]].



Definition ex_empty_store : store := mkStore true ∅ [].

Definition ex_offline_store : store := mkStore false ∅ [].






Definition ex_channels : DataFrame :=
  mkDataFrame [(cp "Channel", D_object); (cp "Site Number", D_object)]
              [[VStr (cp "1"); VStr (cp "42")]; [VStr (cp "2"); VStr (cp "42")]].







(** ** Sample libraries *)

(** An empty result has columns of dtype [object]; otherwise the dtype
    follows the SQL type. *)
Definition ex_read_dtype (ty : sqltype) (values : list value) : dtype :=
  match values with
  | [] => D_object
  | _ :: _ =>
      match ty with
      | T_Integer | T_SMALLINT | T_BigInteger => D_int64
      | T_Float | T_FLOAT => D_float64
      | T_DateTime | T_DATETIME => D_datetime64
      | T_String | T_VARCHAR512 | T_Text => D_object
      end
  end.

(** Keys go together, as they are, when exactly one side is empty and
    when the dtypes are the same (pandas also takes two numeric dtypes
    together, converting one; this library does not). *)
Definition ex_merge_keys (ld : dtype) (lk : list value) (rd : dtype)
    (rk : list value) : option (list value * list value) :=
  if xorb (bool_decide (lk = [])) (bool_decide (rk = [])) || bool_decide (ld = rd)
  then Some (lk, rk)
  else None.

Definition digits (s : str) : bool :=
  negb (bool_decide (s = [])) && forallb (fun c => (48 <=? c) && (c <=? 57))%N s.

(** A pasted value is a literal of the statement only when it is a
    number; the rows whose key cell is that value are selected then. *)
Definition ex_where_rows (t : table) (k : nat) (key_value : value)
  : option (list (list value)) :=
  let selected :=
    List.filter (fun r => bool_decide (cell k r = key_value)) (t_rows t) in
  match key_value with
  | VInt _ => Some selected
  | VStr s => if digits s then Some selected else None
  | _ => None
  end.

(** One statement for the whole frame: all rows are stored and counted,
    or none is and the call raises. *)
Definition ex_to_sql_rows (t : table) (frame : DataFrame)
  : (exn + option Z) * list (list value) :=
  if insert_accepted ascii_upper t frame then
    (inr (Some (Z.of_nat (length (df_rows frame)))),
     map (store_row ascii_upper t (columns frame)) (df_rows frame))
  else (inl SQLAlchemyError, []).

Definition ex_lib : Library :=
  mkLibrary ex_read_dtype ex_merge_keys ex_where_rows ex_to_sql_rows.







(** ** txt_manager.py: keywords and the channel scan *)

Definition DATA_START_WORD : str := cp "Timestamp".
Definition PARAM_CHANNEL : str := cp "Channel".
Definition PARAM_CHANNEL_STOP : str := cp "Data".
Definition LOGGER_SITE_NUM : str := cp "Site Number:".
Definition LOGGER_MODEL : str := cp "Model".
Definition LOGGER_SERIAL_NUM : str := cp "Serial Number".
Definition PARAM_EXP_PAR : str := cp "Export Parameters".
Definition PARAM_SIT_PRP : str := cp "Site Properties".
Definition PARAM_LOG_HIS : str := cp "Logger History".
Definition PARAM_SENS_HIST : str := cp "Sensor History".

(** What [get_sensor_channels] returns: the list of line numbers, or the
    empty frame [pd.DataFrame()] when the header is not found. *)
Inductive SensorChannels : Type :=
  | ChannelLines (channel_lines : list Z)
  | NoChannels.

(** The [for row_num, row_content in enumerate(my_file, ...)] loop of
    [get_sensor_channels]. *)
Fixpoint channel_scan (channel_lines : list Z) (row_num : Z) (lines : list str)
  : list Z :=
  match lines with
  | [] => channel_lines
  | row_content :: rest =>
      if contains PARAM_CHANNEL row_content
         && negb (contains PARAM_CHANNEL_STOP row_content)
      then channel_scan (channel_lines ++ [row_num]) (row_num + 1) rest
      else channel_scan channel_lines (row_num + 1) rest
  end.

(** [get_sensor_channels]; [None] when the Python function returns
    nothing ([StopIteration] caught by its handler). *)
Definition get_sensor_channels (doc : list str) (header : str)
  : option SensorChannels :=
  let h_row := search_param_txt doc header in
  if 0 <? row_num h_row then
    match skip_lines (Z.to_nat (row_num h_row)) doc with
    | None => None
    | Some rest => Some (ChannelLines (channel_scan [] (row_num h_row + 1) rest))
    end
  else Some NoChannels.

(** The line with 1-based number [n]. *)
Definition line_at (doc : list str) (n : Z) : option str :=
  if 0 <? n then doc !! Z.to_nat (n - 1) else None.

(** A line [get_sensor_channels] counts as the start of a channel. *)
Definition channel_line (line : str) : bool :=
  contains PARAM_CHANNEL line && negb (contains PARAM_CHANNEL_STOP line).

(** [s] has no white space at either end. *)
Definition trimmed (s : str) : Prop := strip s = s.

(** [' ' -> '_'] on one character. *)
Definition underscore (c : char) : char :=
  if (c =? SPACE)%N then UNDERSCORE else c.

(** A sample sensor section: two channels, with a [Data] line between. *)
Definition ex_sensor_doc : list str :=
  [ln "Sensor History"; ln "Channel: 1"; ln "Units: m/s"; ln "";
   ln "Data"; ln "Channel Data: none"; ln "Channel: 2"; ln "Units: deg"; ln ""].

(** ** Notions used in the statements about the database *)

(** [t'] is [t] with columns added at the end: the columns of [t] keep
    their place, name, type and key flag, and every row keeps its cells
    and has NULL in the new columns. *)
Definition grown (t t' : table) : Prop :=
  exists cs,
    t' = mkTable (t_cols t ++ cs)
                 (map (fun r => r ++ replicate (length cs) VNull) (t_rows t)).

(** Between [st] and [st'] nothing was lost: every table other than
    [name] is as it was, and [name], if it existed, has at most grown. *)
Definition preserved (name : str) (st st' : store) : Prop :=
  st_online st' = st_online st
  /\ (forall other, other <> name -> st_tables st' !! other = st_tables st !! other)
  /\ (forall t, st_tables st !! name = Some t ->
        exists t', st_tables st' !! name = Some t' /\ grown t t').








(** A batch with two new columns whose names differ by letter case only. *)
Definition ex_case_batch : DataFrame :=
  mkDataFrame [(cp "Timestamp", D_datetime64); (cp "Speed", D_float64);
               (cp "SPEED", D_float64)]
              [[VStamp 3; VFloat 0; VFloat 1]].

(** ** db_manager.py: names of keys, columns and tables *)

Definition DATA_TABLE_PK : str := cp "Timestamp".
Definition LOGGER_TABLE_PK : str := cp "Site Number".
Definition SENSOR_TABLE_FK : str := cp "Channel".
Definition DF_RLD_FILE_COL : str := cp "rld_file_name".
Definition DF_TXT_FILE_COL : str := cp "txt_file_name".
Definition LOGGER_TABLE_NAME : str := cp "NRG_Loggers".
Definition SENSOR_TABLE_NAME : str := cp "NRG_Sensors".
Definition MSSQL_DATA_TABLE_NAME : str := cp "NRG_Tower_SN".
Definition UPLD_USER : str := cp "darespinozas_dagster".

(** ** assets.py: the files to process *)

(** [s.endswith(suffix)] *)
Definition py_endswith (suffix s : str) : bool := prefixb (rev suffix) (rev s).

(** [l[start:]] *)
Definition py_slice_from {A : Type} (start : Z) (l : list A) : list A :=
  let n := Z.of_nat (length l) in
  let start := if start <? 0 then Z.max (start + n) 0 else Z.min start n in
  drop (Z.to_nat start) l.

(** [raw_dir_files], given the listing of Symphonie's raw directory: the
    list returned, and the preview added to the metadata when the list is
    not empty. *)
Definition raw_dir_files (listing : list str) : list str * option (list str) :=
  let rld_files := List.filter (py_endswith (cp ".rld")) listing in
  (rld_files,
   if 0 <? Z.of_nat (length rld_files)
   then Some (py_slice_from (Z.of_nat (length rld_files) - 5) rld_files)
   else None).

(** A row of the DuckDB table [decrypted_n_uploaded]. *)
Record UploadRecord : Type := mkUploadRecord {
  file_name : str;
  upload_timestamp : Z;
  uploaded_by : str
}.

(** [uploaded_to_mssql_files]: [SELECT file_name FROM decrypted_n_uploaded]
    on the register [db], which is taken to be reachable. *)
Definition uploaded_to_mssql_files (db : list UploadRecord) : list str :=
  map file_name db.

(** [not_uploaded_files], on the column [file_name] of both frames. *)
Definition not_uploaded_files (raw_dir_files uploaded_to_mssql_files : list str)
  : list str :=
  keep_left_only (merge_left (fun f => f) raw_dir_files uploaded_to_mssql_files).

(** [save_rld_files]: one INSERT per row of the frame; [None] for the
    frame is what a failed [upload_data_to_mmsql] hands over, on which
    [iterrows] raises and nothing is inserted. *)
Definition save_rld_files (upload_data_to_mmsql : option (list UploadRecord))
    (db : list UploadRecord) : list UploadRecord :=
  match upload_data_to_mmsql with
  | None => db
  | Some rows => fold_left (fun db rld_files => db ++ [rld_files]) rows db
  end.

(** A row of the frame [nrg_files_n_tables] returns. *)
Record FileTable : Type := mkFileTable {
  rld_fname : str;
  txt_fname : str;
  table_name : str
}.

(** Errors of the asset functions that their handlers catch. *)
Inductive py_error : Type :=
  | AttributeError
  | TypeError
  | UnboundLocalError
  | StoreError (e : exn).

(** [df[label] = v] for a scalar [v]: the column is overwritten where it
    is, or added at the end. *)
Definition assign_scalar (label : str) (v : value) (df : DataFrame) : DataFrame :=
  match index_where (fun c => bool_decide (c = label)) (columns df) with
  | Some j =>
      mkDataFrame (<[j := (label, D_object)]> (df_cols df))
                  (map (fun r => <[j := v]> r) (df_rows df))
  | None =>
      mkDataFrame (df_cols df ++ [(label, D_object)])
                  (map (fun r => r ++ [v]) (df_rows df))
  end.

Section Files.

(** The lines of a file of the text directory; [None] when it cannot be
    opened. *)
Variable read_txt : str -> option (list str).

(** [pd.read_csv(path, delimiter='\t', skiprows=n, header=0)] on a file of
    the text directory; [None] when it raises. *)
Variable read_csv : str -> Z -> option DataFrame.

(** [pd.to_datetime] on a column; [None] when it raises. *)
Variable to_datetime : list value -> option (list value).

(** [datetime.now()] at the registration of the file with index [idx]. *)
Variable now : nat -> Z.

(** [search_param_txt] on a file: nothing is returned when the file cannot
    be opened. *)
Definition search_param_file (txt_file seached_param : str) : option ParameterMatch :=
  match read_txt txt_file with
  | None => None
  | Some doc => Some (search_param_txt doc seached_param)
  end.

(** The loop of [nrg_files_n_tables]; [None] when a subscript on the
    missing result of [search_param_txt] raises. *)
Fixpoint files_tables_loop (files_tables_dict : list FileTable) (txt_files : list str)
  : option (list FileTable) :=
  match txt_files with
  | [] => Some files_tables_dict
  | txtf_now :: rest =>
      let rld_file_now := py_replace (cp "_meas.txt") (cp ".rld") txtf_now in
      match search_param_file txtf_now LOGGER_SITE_NUM with
      | None => None
      | Some p_sitenum =>
          let tbl_name :=
            MSSQL_DATA_TABLE_NAME ++ [UNDERSCORE] ++ param_value p_sitenum in
          if negb (bool_decide (param_value p_sitenum = [])) then
            files_tables_loop
              (files_tables_dict ++ [mkFileTable rld_file_now txtf_now tbl_name]) rest
          else files_tables_loop files_tables_dict rest
      end
  end.

(** [nrg_files_n_tables], given the listing of the text directory. *)
Definition nrg_files_n_tables (listing : list str) : option (list FileTable) :=
  let txt_files := List.filter (py_endswith (cp ".txt")) listing in
  files_tables_loop [] txt_files.

(** [get_dataframe_txt]; [None] when its handler caught an exception. *)
Definition get_dataframe_txt (txt_file : str) : option DataFrame :=
  match search_param_file txt_file DATA_START_WORD with
  | None => None
  | Some found_row =>
      if 0 <? row_num found_row then
        match read_csv txt_file (row_num found_row - 1) with
        | None => None
        | Some nrg_df =>
            if bool_decide (DATA_TABLE_PK ∈ columns nrg_df) then
              match find_label DATA_TABLE_PK (columns nrg_df) with
              | inl _ => None
              | inr j =>
                  match to_datetime (map (cell j) (df_rows nrg_df)) with
                  | None => None
                  | Some stamps =>
                      Some (mkDataFrame
                              (<[j := (DATA_TABLE_PK, D_datetime64)]> (df_cols nrg_df))
                              (zip_with (fun r v => <[j := v]> r)
                                        (df_rows nrg_df) stamps))
                  end
              end
            else Some empty_DataFrame
        end
      else Some empty_DataFrame
  end.

Variable upper : str -> str.
Variable lib : Library.

(** The loop of [upload_data_to_mmsql]. The local variable [rows_ins] is
    [None] while unbound. An error ends the loop; the handler of the asset
    then logs it and nothing is returned. *)
Fixpoint upload_loop (idx : nat) (rows_ins : option (option Z))
    (files_duckdb : list UploadRecord) (frows : list FileTable) (st : store)
  : (py_error + option (option Z) * list UploadRecord) * store :=
  match frows with
  | [] => (inr (rows_ins, files_duckdb), st)
  | frow :: rest =>
      let registered :=
        files_duckdb ++ [mkUploadRecord (rld_fname frow) (now idx) UPLD_USER] in
      match get_dataframe_txt (txt_fname frow) with
      | None => (inl AttributeError, st)
      | Some data_to_insert =>
          if negb (df_empty data_to_insert) then
            let data_to_insert :=
              assign_scalar DF_RLD_FILE_COL (VStr (rld_fname frow)) data_to_insert in
            let data_to_insert :=
              assign_scalar DF_TXT_FILE_COL (VStr (txt_fname frow)) data_to_insert in
            match create_alter_mssql_table upper (table_name frow) data_to_insert
                    DATA_TABLE_PK true st with
            | (Raised e, st1) => (inl (StoreError e), st1)
            | (Returned ct_result, st1) =>
                let '(bound, st2) :=
                  if ct_result then
                    match insert_data_msssql upper lib (table_name frow) data_to_insert
                            DATA_TABLE_PK (VStr []) [] st1 with
                    | (Raised e, st2) => (inl (StoreError e), st2)
                    | (Returned r, st2) => (inr (Some r), st2)
                    end
                  else (inr rows_ins, st1) in
                match bound with
                | inl e => (inl e, st2)
                | inr None => (inl UnboundLocalError, st2)
                | inr (Some None) => (inl TypeError, st2)
                | inr (Some (Some n)) =>
                    upload_loop (S idx) (Some (Some n)) registered rest st2
                end
            end
          else upload_loop (S idx) rows_ins registered rest st
      end
  end.

(** [upload_data_to_mmsql]: the frame of registered files, or nothing. *)
Definition upload_data_to_mmsql (nrg_files_n_tables : list FileTable) (st : store)
  : option (list UploadRecord) * store :=
  match upload_loop O None [] nrg_files_n_tables st with
  | (inl _, st') => (None, st')
  | (inr (_, files_duckdb), st') => (Some files_duckdb, st')
  end.

End Files.

(** ** Sample files *)

Definition ex_file_a : list str :=
  [ln "Site Number: 42"; ln ""; ln "Timestamp Val1"; ln "1 10"; ln "2 20"].

Definition ex_file_b : list str :=
  [ln "Site Number: 43"; ln ""; ln "Timestamp Speed SPEED"; ln "3 0 1"].

Definition ex_file_c : list str :=
  [ln "Site Number: 44"; ln ""; ln "Timestamp Val1"; ln "1 10"; ln "1 20"].

Definition ex_read_txt (txt_file : str) : option (list str) :=
  if bool_decide (txt_file = cp "a_meas.txt") then Some ex_file_a
  else if bool_decide (txt_file = cp "b_meas.txt") then Some ex_file_b
  else if bool_decide (txt_file = cp "c_meas.txt") then Some ex_file_c
  else if bool_decide (txt_file = cp "notes.txt") then Some [ln "no parameters"]
  else None.

Definition ex_read_csv (txt_file : str) (skiprows : Z) : option DataFrame :=
  if bool_decide (txt_file = cp "a_meas.txt") then Some ex_batch
  else if bool_decide (txt_file = cp "b_meas.txt") then Some ex_case_batch
  else if bool_decide (txt_file = cp "c_meas.txt") then Some ex_dup_batch
  else None.

Definition ex_to_datetime (column : list value) : option (list value) :=
  Some column.

Definition ex_now (idx : nat) : Z := Z.of_nat idx.

Definition ex_listing : list str :=
  [cp "a_meas.txt"; cp "notes.txt"; cp "readme.md"; cp "b_meas.txt"].

Definition ex_frow_a : FileTable :=
  mkFileTable (cp "a.rld") (cp "a_meas.txt") (cp "NRG_Tower_SN_42").

Definition ex_frow_b : FileTable :=
  mkFileTable (cp "b.rld") (cp "b_meas.txt") (cp "NRG_Tower_SN_43").

Definition ex_frow_c : FileTable :=
  mkFileTable (cp "c.rld") (cp "c_meas.txt") (cp "NRG_Tower_SN_44").

(** The batch [upload_data_to_mmsql] hands to the database for a file:
    the frame read, with the two columns naming its files. *)
Definition upload_batch (frow : FileTable) (data : DataFrame) : DataFrame :=
  assign_scalar DF_TXT_FILE_COL (VStr (txt_fname frow))
    (assign_scalar DF_RLD_FILE_COL (VStr (rld_fname frow)) data).

(** * Facts *)

(** ** Facts about the string primitives *)

Lemma prefixb_spec (p s : str) :
  prefixb p s = true <-> exists post, s = p ++ post.
Proof.
  revert s. induction p as [|a p IH]; intros s; simpl.
  - split; eauto.
  - destruct s as [|b s].
    + split; [discriminate | intros [post H]; discriminate].
    + rewrite andb_true_iff, N.eqb_eq, IH. split.
      * intros [-> [post ->]]. eauto.
      * intros [post H]. injection H as -> ->. eauto.
Qed.

Lemma contains_spec (needle s : str) :
  contains needle s = true <-> is_substring needle s.
Proof.
  unfold is_substring. induction s as [|c s IH]; simpl.
  - rewrite orb_false_r, prefixb_spec. split.
    + intros [post H]. exists [], post. exact H.
    + intros [pre [post H]]. destruct pre; simpl in H.
      * eauto.
      * discriminate.
  - rewrite orb_true_iff, prefixb_spec, IH. split.
    + intros [[post H] | [pre [post H]]].
      * exists [], post. exact H.
      * exists (c :: pre), post. simpl. now rewrite H.
    + intros [pre [post H]]. destruct pre as [|c' pre]; simpl in H.
      * left. eauto.
      * right. injection H as _ H. eauto.
Qed.

Lemma contains_false_spec (needle s : str) :
  contains needle s = false <-> ~ is_substring needle s.
Proof.
  rewrite <- contains_spec. now rewrite not_true_iff_false.
Qed.

Lemma replace_scan_skip (old new : str) (k : nat) (s : str) :
  replace_scan old new k s = replace_scan old new O (drop k s).
Proof.
  revert k. induction s as [|c s IH]; intros [|k]; simpl; auto.
Qed.

Lemma replace_scan_nil (old new : str) (k : nat) : replace_scan old new k [] = [].
Proof. reflexivity. Qed.

(** An occurrence at the front is replaced, and the scan resumes after it. *)
Lemma py_replace_prefix (old new s : str) :
  old <> [] ->
  py_replace old new (old ++ s) = new ++ py_replace old new s.
Proof.
  destruct old as [|a old]; [easy | intros _].
  unfold py_replace. cbn [app replace_scan].
  assert (Hp : prefixb (a :: old) (a :: old ++ s) = true).
  { apply prefixb_spec. now exists s. }
  rewrite Hp. f_equal. rewrite replace_scan_skip. cbn [length Nat.pred].
  now rewrite drop_app_length.
Qed.

(** A character that starts no occurrence is copied. *)
Lemma py_replace_cons (old new : str) (c : char) (s : str) :
  old <> [] ->
  prefixb old (c :: s) = false ->
  py_replace old new (c :: s) = c :: py_replace old new s.
Proof.
  destruct old as [|a old]; [easy | intros _ Hp].
  unfold py_replace. cbn [replace_scan]. now rewrite Hp.
Qed.

(** A string without an occurrence is left as it is. *)
Lemma py_replace_absent (old new s : str) :
  old <> [] ->
  contains old s = false ->
  py_replace old new s = s.
Proof.
  intros Hold. induction s as [|c s IH]; intros Hc.
  - destruct old; [easy | reflexivity].
  - cbn [contains] in Hc. apply orb_false_iff in Hc as [Hp Hc].
    rewrite py_replace_cons by assumption. now rewrite IH.
Qed.

(** ** [search_param_txt] *)

Lemma search_lines_found (needle : str) (before : list str) (line : str)
    (after : list str) (n : Z) :
  Forall (fun l => contains needle l = false) before ->
  contains needle line = true ->
  search_lines needle n (before ++ line :: after) =
    mkMatch (n + Z.of_nat (length before))
            (py_replace [SPACE] [UNDERSCORE] (strip (py_replace needle [] line))).
Proof.
  intros Hb Hl. revert n. induction Hb as [|l before Hlf _ IH]; intros n.
  - cbn [app search_lines length]. rewrite Hl. f_equal. lia.
  - cbn [app search_lines]. rewrite Hlf, IH. f_equal.
    rewrite length_cons. lia.
Qed.

Lemma search_lines_absent (needle : str) (doc : list str) (n : Z) :
  Forall (fun l => contains needle l = false) doc ->
  search_lines needle n doc = mkMatch (-1) [].
Proof.
  intros H. revert n. induction H as [|l doc Hl _ IH]; intros n.
  - reflexivity.
  - cbn [search_lines]. now rewrite Hl, IH.
Qed.

(** C6. [search_param_txt]: when [line] is the first line that contains
    the needle, the result is its 1-based number and the line with the
    needle's occurrences removed, trimmed, with every space replaced by an
    underscore; when no line contains the needle the result is the record
    with row number -1 and an empty value. *)
Theorem C6_search_param_txt (doc : list str) (needle : str) :
  (forall before line after,
      doc = before ++ line :: after ->
      (forall l, l ∈ before -> ~ is_substring needle l) ->
      is_substring needle line ->
      search_param_txt doc needle =
        mkMatch (Z.of_nat (length before) + 1)
                (py_replace [SPACE] [UNDERSCORE]
                   (strip (py_replace needle [] line))))
  /\ ((forall l, l ∈ doc -> ~ is_substring needle l) ->
      search_param_txt doc needle = mkMatch (-1) []).
Proof.
  split.
  - intros before line after -> Hb Hl. unfold search_param_txt.
    rewrite search_lines_found.
    + f_equal. lia.
    + apply Forall_forall. intros l Hin. apply contains_false_spec. now apply Hb.
    + now apply contains_spec.
  - intros H. apply search_lines_absent, Forall_forall.
    intros l Hin. apply contains_false_spec. now apply H.
Qed.

(** ** Dictionaries *)

Lemma dict_set_keys (k v : str) (d : py_dict) :
  dict_keys_of (dict_set k v d) =
    if decide (k ∈ dict_keys_of d) then dict_keys_of d else dict_keys_of d ++ [k].
Proof.
  unfold dict_keys_of. induction d as [|[k' v'] d IH]; cbn [dict_set map fst].
  - destruct (decide (k ∈ [])) as [H|_]; [inversion H | reflexivity].
  - destruct (decide (k' = k)) as [->|Hne]; cbn [map fst].
    + destruct (decide (k ∈ k :: map fst d)) as [_|H]; [reflexivity|].
      exfalso. apply H. left.
    + rewrite IH. destruct (decide (k ∈ map fst d)) as [Hin|Hin];
        destruct (decide (k ∈ k' :: map fst d)) as [Hin'|Hin']; try reflexivity.
      * exfalso. apply Hin'. now right.
      * exfalso. apply elem_of_cons in Hin' as [->|Hin']; [now apply Hne | now apply Hin].
Qed.

Lemma dict_update_cons (d : py_dict) (k v : str) (kvs : list (str * str)) :
  dict_update d ((k, v) :: kvs) = dict_update (dict_set k v d) kvs.
Proof. reflexivity. Qed.

Lemma dict_update_NoDup (kvs : list (str * str)) (d : py_dict) :
  NoDup (dict_keys_of d) -> NoDup (dict_keys_of (dict_update d kvs)).
Proof.
  revert d. induction kvs as [|[k v] kvs IH]; intros d Hd.
  - exact Hd.
  - rewrite dict_update_cons. apply IH. rewrite dict_set_keys. destruct (decide _) as [Hin|Hin].
    + exact Hd.
    + apply NoDup_app. repeat split; [exact Hd | | apply NoDup_singleton].
      intros x Hx Hx'. apply list_elem_of_singleton in Hx'. now subst.
Qed.

Lemma dict_update_elem (kvs : list (str * str)) (d : py_dict) (k : str) :
  k ∈ dict_keys_of (dict_update d kvs) <-> k ∈ dict_keys_of d \/ k ∈ map fst kvs.
Proof.
  revert d. induction kvs as [|[k' v] kvs IH]; intros d.
  - cbn. rewrite elem_of_nil. tauto.
  - rewrite dict_update_cons. cbn [map fst]. rewrite IH, dict_set_keys, elem_of_cons.
    destruct (decide _) as [Hin|Hin].
    + split; [tauto | intros [H|[->|H]]; tauto].
    + rewrite elem_of_app, list_elem_of_singleton. tauto.
Qed.

Lemma dict_update_fresh (kvs : list (str * str)) (d : py_dict) :
  NoDup (dict_keys_of d ++ map fst kvs) ->
  dict_keys_of (dict_update d kvs) = dict_keys_of d ++ map fst kvs.
Proof.
  revert d. induction kvs as [|[k v] kvs IH]; intros d Hd.
  - cbn. now rewrite app_nil_r.
  - rewrite dict_update_cons. cbn [map fst] in *.
    assert (Hk : k ∉ dict_keys_of d).
    { apply NoDup_app in Hd as (_ & Hd & _). intros Hin. apply (Hd k Hin). left. }
    assert (Hs : dict_keys_of (dict_set k v d) = dict_keys_of d ++ [k]).
    { rewrite dict_set_keys. now destruct (decide _). }
    rewrite IH; rewrite Hs, <- app_assoc; [reflexivity | exact Hd].
Qed.

Lemma dict_zip_keys_NoDup (ks vs : list str) : NoDup (dict_keys_of (dict_zip ks vs)).
Proof. apply (dict_update_NoDup _ []). constructor. Qed.

Lemma fst_combine_same_length {A B : Type} (l : list A) (l' : list B) :
  length l = length l' -> map fst (combine l l') = l.
Proof.
  revert l'. induction l as [|a l IH]; intros [|b l'] H; try discriminate; simpl.
  - reflexivity.
  - f_equal. apply IH. now injection H.
Qed.

Lemma dict_zip_keys_elem (ks vs : list str) (k : str) :
  length ks = length vs ->
  k ∈ dict_keys_of (dict_zip ks vs) <-> k ∈ ks.
Proof.
  intros Hlen. unfold dict_zip.
  change (fold_left _ (combine ks vs) []) with (dict_update [] (combine ks vs)).
  rewrite dict_update_elem, fst_combine_same_length by exact Hlen.
  cbn. rewrite elem_of_nil. tauto.
Qed.

Lemma dict_zip_keys_distinct (ks vs : list str) :
  length ks = length vs ->
  NoDup ks ->
  dict_keys_of (dict_zip ks vs) = ks.
Proof.
  intros Hlen Hnd. unfold dict_zip.
  change (fold_left _ (combine ks vs) []) with (dict_update [] (combine ks vs)).
  rewrite dict_update_fresh; rewrite fst_combine_same_length by exact Hlen;
    [reflexivity | exact Hnd].
Qed.

Lemma dict_zip_keys_length (ks vs : list str) :
  length ks = length vs ->
  length (dict_keys_of (dict_zip ks vs)) = length (remove_dups ks).
Proof.
  intros Hlen. apply Permutation_length, NoDup_Permutation.
  - apply dict_zip_keys_NoDup.
  - apply NoDup_remove_dups.
  - intros k. rewrite dict_zip_keys_elem by exact Hlen.
    now rewrite elem_of_remove_dups.
Qed.

Lemma columns_DataFrame_of_dict (d : py_dict) :
  columns (DataFrame_of_dict d) = dict_keys_of d.
Proof.
  unfold columns, DataFrame_of_dict, dict_keys_of. cbn [df_cols].
  rewrite map_map. reflexivity.
Qed.

(** ** The reading loop *)

Lemma skip_lines_drop (n : nat) (doc : list str) :
  skip_lines n doc = if decide (n <= length doc)%nat then Some (drop n doc) else None.
Proof.
  revert doc. induction n as [|n IH]; intros doc.
  - cbn [skip_lines]. destruct (decide _) as [_|H]; [now rewrite drop_0 | cbn in H; lia].
  - destruct doc as [|l doc]; cbn [skip_lines].
    + destruct (decide _) as [H|_]; [cbn in H; lia | reflexivity].
    + rewrite IH. cbn [length drop].
      destruct (decide (n <= length doc)%nat), (decide (S n <= S (length doc))%nat);
        try reflexivity; lia.
Qed.

(** Lines are dropped until [skip_count] reaches [skip_rows]. *)
Lemma read_params_skip (skip_rows skip_count : Z) (ks vs : list str) (lines : list str) :
  0 <= skip_count <= skip_rows ->
  read_params skip_rows skip_count ks vs lines =
    read_params skip_rows skip_rows ks vs (drop (Z.to_nat (skip_rows - skip_count)) lines).
Proof.
  revert skip_count. induction lines as [|l lines IH]; intros sc Hsc.
  - rewrite drop_nil. reflexivity.
  - destruct (Z.eq_dec sc skip_rows) as [->|Hne].
    + rewrite Z.sub_diag. cbn [Z.to_nat]. now rewrite drop_0.
    + cbn [read_params]. apply Z.eqb_neq in Hne as Hne'. rewrite Hne'.
      rewrite IH by lia.
      replace (Z.to_nat (skip_rows - sc)) with (S (Z.to_nat (skip_rows - (sc + 1)))) by lia.
      reflexivity.
Qed.

(** Past the skipped lines, every non-blank line adds a key and a value,
    and the first blank line returns the frame. *)
Lemma read_params_block (skip_rows : Z) (ks vs : list str)
    (block : list str) (stop : str) (rest : list str) :
  Forall (fun l => ~ blank l) block ->
  blank stop ->
  read_params skip_rows skip_rows ks vs (block ++ stop :: rest) =
    Some (DataFrame_of_dict
            (dict_zip (ks ++ map line_key block) (vs ++ map line_value block))).
Proof.
  intros Hb Hs. revert ks vs. induction Hb as [|l block Hl _ IH]; intros ks vs.
  - cbn [app read_params map]. rewrite Z.eqb_refl, !app_nil_r.
    destruct (decide (strip stop = [])) as [_|H]; [reflexivity | now contradict H].
  - cbn [app read_params map]. rewrite Z.eqb_refl.
    destruct (decide (strip l = [])) as [H|_]; [now contradict Hl |].
    rewrite IH, <- !app_assoc. reflexivity.
Qed.

(** Without a blank line the loop runs off the end of the file. *)
Lemma read_params_unterminated (skip_rows : Z) (ks vs : list str) (lines : list str) :
  Forall (fun l => ~ blank l) lines ->
  read_params skip_rows skip_rows ks vs lines = None.
Proof.
  intros H. revert ks vs. induction H as [|l lines Hl _ IH]; intros ks vs.
  - reflexivity.
  - cbn [read_params]. rewrite Z.eqb_refl.
    destruct (decide (strip l = [])) as [H|_]; [now contradict Hl | apply IH].
Qed.

Lemma get_params_from_txt_unfold (doc : list str) (header : str)
    (param_line skip_rows : Z) :
  0 < start_row doc header param_line ->
  0 <= skip_rows ->
  get_params_from_txt doc header param_line skip_rows =
    read_params skip_rows skip_rows [] []
      (lines_read doc (start_row doc header param_line) skip_rows).
Proof.
  intros Hs Hk. unfold get_params_from_txt, lines_read.
  apply Z.ltb_lt in Hs as ->. apply Z.leb_le in Hk as Hk'. rewrite Hk'. cbn [andb].
  rewrite skip_lines_drop. destruct (decide _) as [Hle|Hgt].
  - rewrite read_params_skip by lia. rewrite Z.sub_0_r, drop_drop. reflexivity.
  - rewrite drop_ge by lia. reflexivity.
Qed.

(** C7, as amended. [get_params_from_txt] passes over [skip_rows] lines,
    the start line being the first of them (with [skip_rows = 0] the start
    line itself is read as a parameter), then reads [block], the lines up
    to the first blank one. The frame is built from [block] alone: its
    columns are the keys of these lines without repetition, as many as
    there are distinct keys, and as many as lines when the keys are
    pairwise distinct. *)
Theorem C7_read_parameter_block (doc : list str) (header : str) (param_line skip_rows : Z)
    (block : list str) (stop : str) (rest : list str) :
  0 < start_row doc header param_line ->
  0 <= skip_rows ->
  lines_read doc (start_row doc header param_line) skip_rows = block ++ stop :: rest ->
  Forall (fun l => ~ blank l) block ->
  blank stop ->
  exists df,
    get_params_from_txt doc header param_line skip_rows = Some df
    /\ df = DataFrame_of_dict (dict_zip (map line_key block) (map line_value block))
    /\ NoDup (columns df)
    /\ (forall k, k ∈ columns df <-> k ∈ map line_key block)
    /\ length (columns df) = length (remove_dups (map line_key block))
    /\ (NoDup (map line_key block) ->
        columns df = map line_key block /\ length (columns df) = length block).
Proof.
  intros Hs Hk Hl Hb Hstop. eexists. split; [|split; [reflexivity|]].
  - rewrite get_params_from_txt_unfold, Hl by assumption.
    now rewrite read_params_block.
  - rewrite columns_DataFrame_of_dict.
    assert (Hlen : length (map line_key block) = length (map line_value block))
      by now rewrite !length_map.
    repeat split.
    + apply dict_zip_keys_NoDup.
    + now apply dict_zip_keys_elem.
    + now apply dict_zip_keys_elem.
    + now apply dict_zip_keys_length.
    + now apply dict_zip_keys_distinct.
    + rewrite dict_zip_keys_distinct by assumption. apply length_map.
Qed.

(** C10. When no line from the first line read to the end of the file is
    blank, [get_params_from_txt] returns nothing ([None]): neither the
    keys gathered so far nor an empty frame. *)
Theorem C10_unterminated_block (doc : list str) (header : str) (param_line skip_rows : Z) :
  0 < start_row doc header param_line ->
  0 <= skip_rows ->
  Forall (fun l => ~ blank l)
         (lines_read doc (start_row doc header param_line) skip_rows) ->
  get_params_from_txt doc header param_line skip_rows = None.
Proof.
  intros Hs Hk H. rewrite get_params_from_txt_unfold by assumption.
  now apply read_params_unterminated.
Qed.

(** ** The monad *)

Lemma bind_Returned {A B : Type} (m : M A) (k : A -> M B) (st st' : store) (a : A) :
  m st = (Returned a, st') -> bind m k st = k a st'.
Proof. unfold bind. now intros ->. Qed.

Lemma bind_Raised {A B : Type} (m : M A) (k : A -> M B) (st st' : store) (e : exn) :
  m st = (Raised e, st') -> bind m k st = (Raised e, st').
Proof. unfold bind. now intros ->. Qed.

Lemma try_except_Returned {A : Type} (m : M A) (h : exn -> M A) (st st' : store) (a : A) :
  m st = (Returned a, st') -> try_except m h st = (Returned a, st').
Proof. unfold try_except. now intros ->. Qed.

Lemma try_except_Raised {A : Type} (m : M A) (h : exn -> M A) (st st' : store) (e : exn) :
  m st = (Raised e, st') -> try_except m h st = h e st'.
Proof. unfold try_except. now intros ->. Qed.

(** ** The merge *)

Lemma keep_left_only_merge_left {A K : Type} `{EqDecision K}
    (key : A -> K) (left : list A) (right : list K) :
  keep_left_only (merge_left key left right) =
    List.filter (fun a => negb (bool_decide (key a ∈ right))) left.
Proof.
  unfold keep_left_only, merge_left.
  induction left as [|a left IH]; [reflexivity|].
  cbn [flat_map List.filter]. rewrite List.filter_app, map_app, IH. clear IH.
  destruct (List.filter (fun k => bool_decide (k = key a)) right) as [|k ks] eqn:Hf.
  - assert (Hnot : key a ∉ right).
    { intros Hin. apply list_elem_of_In in Hin.
      assert (Hin' : In (key a) (List.filter (fun k => bool_decide (k = key a)) right)).
      { apply List.filter_In. split; [exact Hin | now apply bool_decide_eq_true]. }
      rewrite Hf in Hin'. destruct Hin'. }
    rewrite (bool_decide_eq_false_2 _ Hnot). reflexivity.
  - assert (Hin : key a ∈ right).
    { assert (Hk : In k (List.filter (fun k => bool_decide (k = key a)) right))
        by (rewrite Hf; now left).
      apply List.filter_In in Hk as [Hk Heq]. apply bool_decide_eq_true in Heq.
      subst k. now apply list_elem_of_In. }
    rewrite (bool_decide_eq_true_2 _ Hin). cbn [negb].
    replace (List.filter _ (map _ (k :: ks))) with (@nil (A * merge_indicator)).
    + reflexivity.
    + generalize (k :: ks). intros l. induction l; [reflexivity | simpl; assumption].
Qed.

(** ** Store primitives *)

Lemma st_online_logged (s : stmt) (st : store) :
  st_online (logged s st) = st_online st.
Proof. reflexivity. Qed.

Lemma st_tables_logged (s : stmt) (st : store) :
  st_tables (logged s st) = st_tables st.
Proof. reflexivity. Qed.

Lemma has_table_run (name : str) (st : store) :
  has_table name st =
    (if st_online st
     then Returned (bool_decide (is_Some (st_tables st !! name)))
     else Raised SQLAlchemyError,
     logged (Q_has_table name) st).
Proof.
  unfold has_table, bind, issue, connect, get_table, ret.
  rewrite st_online_logged. now destruct (st_online st).
Qed.


(** ** Positions in lists *)


Lemma index_where_Some {A : Type} (p : A -> bool) (l : list A) (i : nat) :
  index_where p l = Some i -> exists x, l !! i = Some x /\ p x = true.
Proof.
  revert i. induction l as [|x l IH]; intros i; cbn [index_where]; [discriminate|].
  destruct (p x) eqn:Hp.
  - intros [= <-]. eauto.
  - destruct (index_where p l) as [i'|]; [|discriminate]. intros [= <-].
    destruct (IH i' eq_refl) as (y & Hy & Hpy). eauto.
Qed.

(** With pairwise distinct keys, the element at position [i] is the first
    one found by its key. *)
Lemma index_where_key {A K : Type} `{EqDecision K} (f : A -> K) (l : list A)
    (i : nat) (x : A) (k : K) :
  NoDup (map f l) ->
  l !! i = Some x ->
  f x = k ->
  index_where (fun y => bool_decide (f y = k)) l = Some i.
Proof.
  intros Hnd Hx <-. revert i Hx. induction l as [|a l IH]; intros i Hx; [discriminate|].
  cbn [map] in Hnd. apply NoDup_cons in Hnd as [Ha Hnd]. cbn [index_where].
  destruct i as [|i]; cbn in Hx.
  - injection Hx as ->. now rewrite bool_decide_eq_true_2.
  - rewrite bool_decide_eq_false_2.
    + now rewrite (IH Hnd i Hx).
    + intros Heq. apply Ha. rewrite Heq. apply list_elem_of_fmap.
      exists x. split; [reflexivity|]. now apply list_elem_of_lookup_2 in Hx.
Qed.



Lemma find_label_at (labels : list str) (j : nat) (label : str) :
  NoDup labels ->
  labels !! j = Some label ->
  find_label label labels = inr j.
Proof.
  intros Hnd Hj. unfold find_label.
  rewrite (index_where_key (fun c => c) labels j label label); try done.
  - rewrite bool_decide_eq_false_2; [reflexivity|].
    rewrite <- (take_drop_middle labels j label Hj) in Hnd.
    apply NoDup_app in Hnd as (_ & _ & Hnd). now apply NoDup_cons in Hnd as [Hnot _].
  - now rewrite map_id.
Qed.






Section StoreFacts.

Variable upper : str -> str.
Variable lib : Library.













End StoreFacts.

Section Upsert.

Variable upper : str -> str.
Variable lib : Library.


Lemma getitem_refused (r : Series) (label : str) (st : store) :
  s_name r <> label -> getitem r label st = (Raised KeyError, st).
Proof. intros H. unfold getitem. now rewrite bool_decide_eq_false_2. Qed.














(** C5. [create_alter_mssql_table] returns [False] and sends nothing but
    the catalog query, leaving every table as it was, (1) for a non-empty
    batch without the key column when the table does not exist, and (2)
    for every empty batch. *)
Theorem C5_ensure_schema_refuses (st : store) (name : str) (data : DataFrame)
    (pk : str) (pk_flag : bool) :
  (df_empty data = false ->
   pk ∉ columns data ->
   st_tables st !! name = None ->
   exists st',
     create_alter_mssql_table upper name data pk pk_flag st = (Returned false, st')
     /\ st_tables st' = st_tables st
     /\ st_log st' = st_log st ++ [Q_has_table name])
  /\ (df_empty data = true ->
      exists st',
        create_alter_mssql_table upper name data pk pk_flag st = (Returned false, st')
        /\ st_tables st' = st_tables st
        /\ st_log st' = st_log st ++ [Q_has_table name]).
Proof.
  split.
  - intros Hne Hpk Habs. exists (logged (Q_has_table name) st).
    split; [|split; reflexivity].
    unfold create_alter_mssql_table, try_except, create_alter_body, bind.
    rewrite has_table_run. destruct (st_online st); [|reflexivity].
    rewrite Hne, Habs. cbn [negb].
    rewrite (bool_decide_eq_false_2 (is_Some None)) by (intros [? ?]; discriminate).
    cbn [negb]. rewrite (bool_decide_eq_false_2 _ Hpk). reflexivity.
  - intros He. exists (logged (Q_has_table name) st).
    split; [|split; reflexivity].
    unfold create_alter_mssql_table, try_except, create_alter_body, bind.
    rewrite has_table_run. destruct (st_online st); [|reflexivity].
    rewrite He. reflexivity.
Qed.

End Upsert.

Section Schema.

Variable upper : str -> str.


Lemma resolve_at (cols : list column) (j : nat) (c : column) (name : str) :
  NoDup (map upper (map c_name cols)) ->
  cols !! j = Some c ->
  upper (c_name c) = upper name ->
  resolve upper cols name = Some j.
Proof.
  intros Hnd Hc Hname. unfold resolve, same_ident.
  apply (index_where_key (fun y => upper (c_name y)) cols j c); try done.
  now rewrite <- map_map.
Qed.









End Schema.

Lemma bind_Raised_inv {A B : Type} (m : M A) (k : A -> M B) (st st' : store) (e : exn) :
  bind m k st = (Raised e, st') ->
  m st = (Raised e, st')
  \/ exists a s1, m st = (Returned a, s1) /\ k a s1 = (Raised e, st').
Proof.
  unfold bind. destruct (m st) as [[a|e1] s1]; intros H.
  - right. eauto.
  - left. now injection H as -> ->.
Qed.

Lemma bind_inv {A B : Type} (m : M A) (k : A -> M B) (st st' : store)
    (o : outcome B) :
  bind m k st = (o, st') ->
  (exists e, m st = (Raised e, st') /\ o = Raised e)
  \/ exists a s1, m st = (Returned a, s1) /\ k a s1 = (o, st').
Proof.
  unfold bind. destruct (m st) as [[a|e1] s1]; intros H.
  - right. eauto.
  - left. injection H as <- <-. eauto.
Qed.

Lemma has_table_log (name : str) (st st' : store) (o : outcome bool) :
  has_table name st = (o, st') -> st' = logged (Q_has_table name) st.
Proof. rewrite has_table_run. now intros [= _ <-]. Qed.

Lemma reflect_columns_log (name : str) (st st' : store) (o : outcome (list str)) :
  reflect_columns name st = (o, st') -> st' = logged Q_reflect st.
Proof.
  unfold reflect_columns, bind, issue, connect, get_table, ret, raise.
  rewrite st_online_logged. destruct (st_online st); [|now intros [= _ <-]].
  destruct (st_tables (logged Q_reflect st) !! name); now intros [= _ <-].
Qed.

Section Errors.

Variable upper : str -> str.
Variable lib : Library.

Lemma create_all_log (name : str) (cols : list column) (st st' : store)
    (o : outcome unit) :
  create_all upper name cols st = (o, st') ->
  st_log st' = st_log st ++ [S_create_table name cols].
Proof.
  unfold create_all, bind, issue, connect, get_table, put_table, ret, raise.
  rewrite st_online_logged. destruct (st_online st); [|now intros [= _ <-]].
  destruct (st_tables (logged (S_create_table name cols) st) !! name);
    [now intros [= _ <-]|].
  destruct (distinct_idents upper (map c_name cols)); now intros [= _ <-].
Qed.

Lemma alter_add_log (name col : str) (ty : sqltype) (st st' : store)
    (o : outcome unit) :
  alter_add upper name col ty st = (o, st') ->
  st_log st' = st_log st ++ [S_alter_add name col ty].
Proof.
  unfold alter_add, bind, issue, connect, get_table, put_table, ret, raise.
  rewrite st_online_logged. destruct (st_online st); [|now intros [= _ <-]].
  destruct (st_tables (logged (S_alter_add name col ty) st) !! name) as [t|];
    [|now intros [= _ <-]].
  destruct (resolve upper (t_cols t) col); now intros [= _ <-].
Qed.

Lemma read_sql_select_log (name col : str) (st st' : store) (o : outcome Series) :
  read_sql_select upper lib name col st = (o, st') ->
  st' = logged (Q_select name col) st.
Proof.
  unfold read_sql_select, bind, issue, connect, get_table, ret, raise.
  rewrite st_online_logged. destruct (st_online st); [|now intros [= _ <-]].
  destruct (st_tables (logged (Q_select name col) st) !! name) as [t|];
    [|now intros [= _ <-]].
  destruct (table_select upper lib t col); now intros [= _ <-].
Qed.

Lemma read_sql_select_where_log (name col key_col : str) (key_value : value)
    (st st' : store) (o : outcome Series) :
  read_sql_select_where upper lib name col key_col key_value st = (o, st') ->
  st' = logged (Q_select_where name col key_col key_value) st.
Proof.
  unfold read_sql_select_where, bind, issue, connect, get_table, ret, raise.
  rewrite st_online_logged. destruct (st_online st); [|now intros [= _ <-]].
  destruct (st_tables (logged _ st) !! name) as [t|]; [|now intros [= _ <-]].
  destruct (table_select_where upper lib t col key_col key_value); now intros [= _ <-].
Qed.

Lemma to_sql_log (name : str) (frame : DataFrame) (st st' : store)
    (o : outcome (option Z)) :
  to_sql lib name frame st = (o, st') ->
  st_log st' = st_log st ++ [S_insert name frame].
Proof.
  unfold to_sql, bind, issue, connect, get_table, put_table, ret, raise.
  rewrite st_online_logged. destruct (st_online st); [|now intros [= _ <-]].
  destruct (to_sql_rows lib _ frame) as [[e|num] appended]; now intros [= _ <-].
Qed.

Lemma getitem_state (r : Series) (label : str) (st st' : store)
    (o : outcome Series) :
  getitem r label st = (o, st') -> st' = st.
Proof. unfold getitem, ret, raise. destruct (bool_decide _); now intros [= _ <-]. Qed.

Lemma new_records_state (data : DataFrame) (existing : Series) (on : str)
    (st st' : store) (o : outcome DataFrame) :
  new_records lib data existing on st = (o, st') -> st' = st.
Proof.
  unfold new_records, ret, raise.
  destruct (find_label on (columns data)); [now intros [= _ <-]|].
  destruct (merge_keys lib _ _ _ _) as [[lk rk]|]; now intros [= _ <-].
Qed.

(** Every statement of a run of the ALTER loop is one of the planned ones,
    in order, each sent once; the loop stops at the first one refused. *)
Lemma for_each_alter_log (name : str) (cs : list (str * dtype)) (st st' : store)
    (o : outcome unit) :
  for_each (fun c => alter_add upper name (fst c) (alter_type (snd c))) cs st = (o, st') ->
  exists n, st_log st' = st_log st ++ alter_stmts name (take n cs).
Proof.
  revert st. induction cs as [|c cs IH]; intros st H.
  - injection H as _ <-. exists O. cbn. now rewrite app_nil_r.
  - cbn [for_each] in H. unfold bind in H.
    destruct (alter_add upper name (fst c) (alter_type (snd c)) st) as [[[]|e1] s1] eqn:Ha;
      apply alter_add_log in Ha.
    + destruct (IH s1 H) as [n Hn]. exists (S n). rewrite Hn, Ha.
      cbn [take alter_stmts map]. now rewrite <- app_assoc.
    + injection H as _ <-. exists 1%nat. rewrite Ha. cbn [take alter_stmts map].
      now rewrite take_0.
Qed.

(** The first step of [insert_data_msssql] sends the one statement that
    reads the existing keys, whatever comes of it. *)
Lemma read_keys_log (name pk : str) (pv : value) (fk : str) (st st' : store)
    (o : outcome Series) :
  (if bool_decide (fk = []) then
     r <-- read_sql_select upper lib name pk ;; getitem r pk
   else
     r <-- read_sql_select_where upper lib name fk pk pv ;;
     getitem r fk) st = (o, st') ->
  st' = logged (select_stmt name pk pv fk) st.
Proof.
  unfold select_stmt. destruct (bool_decide (fk = [])); unfold bind.
  - destruct (read_sql_select upper lib name pk st) as [[r|e1] s0] eqn:Hr;
      apply read_sql_select_log in Hr; subst s0.
    + apply getitem_state.
    + now intros [= _ <-].
  - destruct (read_sql_select_where upper lib name fk pk pv st) as [[r|e1] s0] eqn:Hr;
      apply read_sql_select_where_log in Hr; subst s0.
    + apply getitem_state.
    + now intros [= _ <-].
Qed.

(** A call of [insert_data_msssql] sends the statement that reads the
    keys, once, and after it at most one INSERT. *)
Lemma insert_body_log (name : str) (data : DataFrame) (pk : str) (pv : value)
    (fk : str) (st st' : store) (o : outcome (option Z)) :
  insert_body upper lib name data pk pv fk st = (o, st') ->
  st_log st' = st_log st ++ [select_stmt name pk pv fk]
  \/ exists frame,
       st_log st' = st_log st ++ [select_stmt name pk pv fk; S_insert name frame].
Proof.
  unfold insert_body. intros H.
  apply bind_inv in H as [(e & H & _) | (existing & s1 & Hsel & H)].
  - left. apply read_keys_log in H. now subst st'.
  - apply read_keys_log in Hsel. subst s1.
    apply bind_inv in H as [(e & H & _) | (frame & s2 & Hnew & H)].
    + left. destruct (bool_decide (fk = []));
        apply new_records_state in H; now subst st'.
    + assert (Hs2 : s2 = logged (select_stmt name pk pv fk) st)
        by (destruct (bool_decide (fk = [])); now apply new_records_state in Hnew).
      subst s2. destruct (0 <? Z.of_nat (length (df_rows frame))).
      * right. exists frame.
        apply bind_inv in H as [(e & H & _) | (n & s3 & Hto & H)].
        -- apply to_sql_log in H. rewrite H. cbn [logged st_log].
           now rewrite <- app_assoc.
        -- injection H as _ <-. apply to_sql_log in Hto. rewrite Hto.
           cbn [logged st_log]. now rewrite <- app_assoc.
      * left. now injection H as _ <-.
Qed.

(** A call of [create_alter_mssql_table] sends the catalog query, once,
    and after it nothing, or one CREATE TABLE, or the reflection and the
    ALTER statements planned, each once and in order, up to the first
    one refused. *)
Lemma create_alter_body_log (name : str) (data : DataFrame) (pk : str)
    (pk_flag : bool) (st st' : store) (o : outcome bool) :
  create_alter_body upper name data pk pk_flag st = (o, st') ->
  exists rest,
    st_log st' = st_log st ++ Q_has_table name :: rest
    /\ (rest = []
        \/ (exists cols, rest = [S_create_table name cols])
        \/ exists tbl_columns n,
             rest = Q_reflect ::
                    alter_stmts name (take n (new_columns upper data tbl_columns))).
Proof.
  unfold create_alter_body. intros H.
  apply bind_inv in H as [(e & H & _) | (tbl_exist & s1 & Hhas & H)].
  - apply has_table_log in H. subst st'. exists []. split; [reflexivity | now left].
  - apply has_table_log in Hhas. subst s1.
    destruct (negb (df_empty data));
      [|injection H as _ <-; exists []; split; [reflexivity | now left]].
    destruct (negb tbl_exist).
    + assert (Hcreate : forall cols (o1 : outcome bool),
                (create_all upper name cols >>> ret true)
                  (logged (Q_has_table name) st) = (o1, st') ->
                exists rest,
                  st_log st' = st_log st ++ Q_has_table name :: rest
                  /\ (rest = []
                      \/ (exists cols, rest = [S_create_table name cols])
                      \/ exists tbl_columns n,
                           rest = Q_reflect ::
                             alter_stmts name
                               (take n (new_columns upper data tbl_columns)))).
      { intros cols o1 Hc. exists [S_create_table name cols].
        split; [|right; left; eauto].
        apply bind_inv in Hc as [(e & Hc & _) | (u & s2 & Hc & Hr)].
        - apply create_all_log in Hc. rewrite Hc. cbn [logged st_log].
          now rewrite <- app_assoc.
        - injection Hr as _ <-. apply create_all_log in Hc. rewrite Hc.
          cbn [logged st_log]. now rewrite <- app_assoc. }
      destruct (bool_decide (pk ∈ columns data) && pk_flag);
        [exact (Hcreate _ _ H)|].
      destruct (bool_decide (pk ∈ columns data) && negb pk_flag);
        [exact (Hcreate _ _ H)|].
      injection H as _ <-. exists []. split; [reflexivity | now left].
    + apply bind_inv in H as [(e & H & _) | (tbl_columns & s2 & Hrefl & H)].
      * apply reflect_columns_log in H. subst st'. exists [Q_reflect].
        split; [cbn [logged st_log]; now rewrite <- app_assoc|].
        right; right. exists [], O. now rewrite take_0.
      * apply reflect_columns_log in Hrefl. subst s2.
        assert (Hloop : forall (o1 : outcome unit) s3,
                  (if 0 <? Z.of_nat (length (new_columns upper data tbl_columns))
                   then
                     for_each
                       (fun col_now =>
                          alter_add upper name (fst col_now) (alter_type (snd col_now)))
                       (new_columns upper data tbl_columns)
                   else ret tt)
                    (logged Q_reflect (logged (Q_has_table name) st)) = (o1, s3) ->
                  exists n,
                    st_log s3 =
                      st_log st ++ Q_has_table name :: Q_reflect ::
                        alter_stmts name
                          (take n (new_columns upper data tbl_columns))).
        { intros o1 s3 Hl.
          destruct (0 <? Z.of_nat (length (new_columns upper data tbl_columns))).
          - apply for_each_alter_log in Hl as [n Hn]. exists n. rewrite Hn.
            cbn [logged st_log]. now rewrite <- !app_assoc.
          - injection Hl as _ <-. exists O. rewrite take_0. cbn [logged st_log].
            now rewrite <- !app_assoc. }
        apply bind_inv in H as [(e & H & _) | (u & s3 & Hl & H)].
        -- apply Hloop in H as [n Hn]. eexists. split; [exact Hn|]. right; right. eauto.
        -- injection H as _ <-. apply Hloop in Hl as [n Hn].
           eexists. split; [exact Hn|]. right; right. eauto.
Qed.

(** C9, as amended. No call of [create_alter_mssql_table] or of
    [insert_data_msssql] raises: an error of the database raised inside
    the body (for one, when the database cannot be reached) is caught by
    the handler and the call ends normally; [create_alter_mssql_table]
    returns [False] then. The statements sent by a call are the planned
    ones, each once and in order, and none follows the one that failed:
    nothing is tried again. *)
Theorem C9_store_error_handled (name : str) (data : DataFrame) (pk : str)
    (pk_flag : bool) (pv : value) (fk : str) (st : store) :
  (exists b st',
     create_alter_mssql_table upper name data pk pk_flag st = (Returned b, st')
     /\ (forall e st'',
           create_alter_body upper name data pk pk_flag st = (Raised e, st'') ->
           b = false /\ st' = st'')
     /\ (st_online st = false ->
         create_alter_body upper name data pk pk_flag st =
           (Raised SQLAlchemyError, st')
         /\ st_log st' = st_log st ++ [Q_has_table name])
     /\ exists rest,
          st_log st' = st_log st ++ Q_has_table name :: rest
          /\ (rest = []
              \/ (exists cols, rest = [S_create_table name cols])
              \/ exists tbl_columns n,
                   rest = Q_reflect ::
                          alter_stmts name (take n (new_columns upper data tbl_columns))))
  /\ (exists r st',
        insert_data_msssql upper lib name data pk pv fk st = (Returned r, st')
        /\ (forall e st'',
              insert_body upper lib name data pk pv fk st = (Raised e, st'') ->
              st' = st'')
        /\ (st_online st = false ->
            insert_body upper lib name data pk pv fk st =
              (Raised SQLAlchemyError, st')
            /\ st_log st' = st_log st ++ [select_stmt name pk pv fk])
        /\ (st_log st' = st_log st ++ [select_stmt name pk pv fk]
            \/ exists frame,
                 st_log st' =
                   st_log st ++ [select_stmt name pk pv fk; S_insert name frame])).
Proof.
  split.
  - unfold create_alter_mssql_table, try_except.
    destruct (create_alter_body upper name data pk pk_flag st) as [[b|e] st'] eqn:H.
    + exists b, st'. split; [reflexivity|]. split; [discriminate|]. split.
      * intros Hoff. exfalso. revert H. unfold create_alter_body, bind.
        rewrite has_table_run, Hoff. discriminate.
      * now apply create_alter_body_log in H.
    + exists false, st'. split; [reflexivity|]. split; [now intros ? ? [= _ <-]|].
      split.
      * intros Hoff. revert H. unfold create_alter_body, bind.
        rewrite has_table_run, Hoff. now intros [= <- <-].
      * now apply create_alter_body_log in H.
  - unfold insert_data_msssql, try_except.
    assert (Hoffline : st_online st = false ->
              insert_body upper lib name data pk pv fk st =
                (Raised SQLAlchemyError, logged (select_stmt name pk pv fk) st)).
    { intros Hoff. unfold insert_body, select_stmt, bind.
      destruct (bool_decide (fk = []));
        unfold read_sql_select, read_sql_select_where, bind, issue, connect;
        rewrite st_online_logged, Hoff; reflexivity. }
    destruct (insert_body upper lib name data pk pv fk st) as [[r|e] st'] eqn:H.
    + exists r, st'. split; [reflexivity|]. split; [discriminate|]. split.
      * intros Hoff. discriminate (Hoffline Hoff).
      * now apply insert_body_log in H.
    + exists None, st'. split; [reflexivity|]. split; [now intros ? ? [= _ <-]|].
      split.
      * intros Hoff. injection (Hoffline Hoff) as -> ->.
        split; reflexivity.
      * now apply insert_body_log in H.
Qed.

End Errors.

Lemma base_cols_names (data : DataFrame) : map c_name (base_cols data) = columns data.
Proof. unfold base_cols, columns. now rewrite map_map. Qed.

Lemma flag_pk_names (pk : str) (cols : list column) :
  map c_name (flag_pk pk cols) = map c_name cols.
Proof.
  unfold flag_pk. rewrite map_map. apply map_ext. intros c.
  now destruct (bool_decide (c_name c = pk)).
Qed.

Lemma created_cols_names (data : DataFrame) (pk : str) (pk_flag : bool) :
  map c_name (created_cols data pk pk_flag) = columns data.
Proof.
  unfold created_cols. destruct pk_flag; [rewrite flag_pk_names|]; apply base_cols_names.
Qed.

Lemma base_cols_no_pk (data : DataFrame) :
  Forall (fun c => c_pk c = false) (base_cols data).
Proof. unfold base_cols. apply Forall_forall. intros c Hc.
  apply list_elem_of_fmap in Hc as (x & -> & _). reflexivity. Qed.

Lemma pk_positions_unflagged (k : nat) (cols : list column) :
  Forall (fun c => c_pk c = false) cols -> pk_positions_from k cols = [].
Proof.
  intros H. revert k. induction H as [|c cols Hc _ IH]; intros k; [reflexivity|].
  cbn [pk_positions_from]. now rewrite Hc.
Qed.

Lemma pk_positions_flag_none (pk : str) (k : nat) (cols : list column) :
  Forall (fun c => c_pk c = false) cols ->
  pk ∉ map c_name cols ->
  pk_positions_from k (flag_pk pk cols) = [].
Proof.
  intros H. revert k. induction H as [|c cols Hc _ IH]; intros k Hpk; [reflexivity|].
  cbn [flag_pk map pk_positions_from]. cbn [map] in Hpk.
  apply not_elem_of_cons in Hpk as [Hne Hpk].
  rewrite bool_decide_eq_false_2 by congruence. rewrite Hc. now apply IH.
Qed.

Lemma pk_positions_flag_one (pk : str) (k j : nat) (cols : list column) :
  Forall (fun c => c_pk c = false) cols ->
  NoDup (map c_name cols) ->
  map c_name cols !! j = Some pk ->
  pk_positions_from k (flag_pk pk cols) = [(k + j)%nat].
Proof.
  intros H. revert k j. induction H as [|c cols Hc Hcols IH]; intros k j Hnd Hj; [discriminate|].
  cbn [map] in Hnd, Hj. apply NoDup_cons in Hnd as [Hnot Hnd].
  cbn [flag_pk map pk_positions_from]. destruct j as [|j]; cbn in Hj.
  - injection Hj as Hj. rewrite bool_decide_eq_true_2 by exact Hj. cbn [c_pk].
    fold (flag_pk pk cols). rewrite pk_positions_flag_none; try done.
    + now rewrite Nat.add_0_r.
    + now rewrite <- Hj.
  - rewrite bool_decide_eq_false_2.
    + rewrite Hc. fold (flag_pk pk cols). rewrite (IH (S k) j Hnd Hj). f_equal. lia.
    + intros Heq. apply Hnot. rewrite Heq. now apply list_elem_of_lookup_2 in Hj.
Qed.

Section Creation.

Variable upper : str -> str.

Lemma create_all_run (name : str) (cols : list column) (st : store) :
  st_online st = true ->
  st_tables st !! name = None ->
  NoDup (map upper (map c_name cols)) ->
  create_all upper name cols st =
    (Returned tt, with_table name (mkTable cols []) (logged (S_create_table name cols) st)).
Proof.
  intros Hon Ht Hnd. unfold create_all, bind, issue, connect, get_table, put_table.
  rewrite st_online_logged, Hon, st_tables_logged, Ht.
  unfold distinct_idents. now rewrite bool_decide_eq_true_2.
Qed.

(** A row is stored as it is when the table's columns are the frame's. *)
Lemma store_row_same (cols : list column) (rows : list (list value))
    (labels : list str) (r : list value) :
  NoDup (map upper labels) ->
  map c_name cols = labels ->
  length r = length labels ->
  store_row upper (mkTable cols rows) labels r = r.
Proof.
  intros Hnd Hnames Hlen. unfold store_row. cbn [t_cols].
  apply list_eq. intros i. rewrite list_lookup_fmap.
  destruct (cols !! i) as [c|] eqn:Hc; cbn [fmap option_fmap option_map].
  - assert (Hl : labels !! i = Some (c_name c)).
    { rewrite <- Hnames, list_lookup_fmap, Hc. reflexivity. }
    unfold same_ident.
    rewrite (index_where_key upper labels i (c_name c) (upper (c_name c)) Hnd Hl eq_refl).
    unfold cell. apply lookup_lt_Some in Hl.
    destruct (lookup_lt_is_Some_2 r i) as [x Hx]; [lia|].
    now rewrite Hx, (nth_lookup_Some _ _ VNull _ Hx).
  - symmetry. apply lookup_ge_None. apply lookup_ge_None in Hc.
    rewrite <- Hnames, length_map in Hlen. lia.
Qed.

End Creation.

Section FreshTable.

Variable upper : str -> str.

Lemma created_cols_lookup (data : DataFrame) (pk : str) (pk_flag : bool) (j : nat)
    (l : str) :
  columns data !! j = Some l ->
  exists c, created_cols data pk pk_flag !! j = Some c /\ c_name c = l.
Proof.
  intros Hj. rewrite <- (created_cols_names data pk pk_flag), list_lookup_fmap in Hj.
  destruct (created_cols data pk pk_flag !! j) as [c|]; [|discriminate].
  injection Hj as Hj. eauto.
Qed.

(** [create_alter_mssql_table] on a table that does not exist yet. *)
Lemma create_alter_absent_run (st : store) (name : str) (data : DataFrame)
    (pk : str) (pk_flag : bool) :
  st_online st = true ->
  st_tables st !! name = None ->
  df_empty data = false ->
  pk ∈ columns data ->
  NoDup (map upper (columns data)) ->
  create_alter_mssql_table upper name data pk pk_flag st =
    (Returned true,
     with_table name (mkTable (created_cols data pk pk_flag) [])
       (logged (S_create_table name (created_cols data pk pk_flag))
               (logged (Q_has_table name) st))).
Proof.
  intros Hon Habs Hne Hpk Hnd.
  unfold create_alter_mssql_table, create_alter_body.
  apply try_except_Returned.
  erewrite bind_Returned by (rewrite has_table_run, Hon; reflexivity).
  rewrite Hne, Habs.
  rewrite (bool_decide_eq_false_2 (is_Some None)) by (intros [? ?]; discriminate).
  cbn [negb]. rewrite (bool_decide_eq_true_2 _ Hpk).
  destruct pk_flag; cbn [andb negb].
  - erewrite bind_Returned; [reflexivity|].
    apply (create_all_run upper name (created_cols data pk true)); try done.
    now rewrite created_cols_names.
  - erewrite bind_Returned; [reflexivity|].
    apply (create_all_run upper name (created_cols data pk false)); try done.
    now rewrite created_cols_names.
Qed.

Lemma pk_of_created (data : DataFrame) (pk : str) (j : nat)
    (rows : list (list value)) (r : list value) :
  NoDup (columns data) ->
  columns data !! j = Some pk ->
  pk_of (mkTable (created_cols data pk true) rows) r = [cell j r].
Proof.
  intros Hnd Hj. unfold pk_of, pk_positions, created_cols. cbn [t_cols].
  rewrite (pk_positions_flag_one pk 0 j).
  - reflexivity.
  - apply base_cols_no_pk.
  - now rewrite base_cols_names.
  - now rewrite base_cols_names.
Qed.

Lemma pk_admits_created (data : DataFrame) (pk : str) (pk_flag : bool) (j : nat) :
  NoDup (columns data) ->
  columns data !! j = Some pk ->
  (pk_flag = true ->
   NoDup (map (cell j) (df_rows data)) /\ VNull ∉ map (cell j) (df_rows data)) ->
  pk_admits (mkTable (created_cols data pk pk_flag) []) (df_rows data) = true.
Proof.
  intros Hnd Hj Hkeys. unfold pk_admits. destruct pk_flag.
  - destruct (Hkeys eq_refl) as [Hdistinct Hnull].
    destruct (pk_positions _) as [|p ps]; [reflexivity|].
    cbn [t_rows app]. apply andb_true_iff. split.
    + apply bool_decide_eq_true.
      assert (Hext : map (pk_of (mkTable (created_cols data pk true) []))
                         (df_rows data)
                     = map (fun v => [v]) (map (cell j) (df_rows data))).
      { rewrite map_map. apply map_ext. intros r. now apply pk_of_created. }
      rewrite Hext.
      assert (Hinj : Inj (=) (=) (fun v : value => [v]))
        by (intros v w [= ->]; reflexivity).
      now apply (NoDup_fmap_2 (fun v : value => [v])).
    + apply forallb_forall. intros r Hr. apply negb_true_iff, bool_decide_eq_false.
      rewrite (pk_of_created data pk j [] r Hnd Hj). intros Hin.
      apply list_elem_of_singleton in Hin. apply Hnull. rewrite Hin.
      apply list_elem_of_fmap. exists r. split; [reflexivity | now apply list_elem_of_In].
  - unfold pk_positions, created_cols. cbn [t_cols].
    now rewrite (pk_positions_unflagged 0 (base_cols data) (base_cols_no_pk data)).
Qed.

Lemma store_rows_created (data : DataFrame) (pk : str) (pk_flag : bool)
    (rows : list (list value)) :
  NoDup (map upper (columns data)) ->
  df_wf data ->
  map (store_row upper (mkTable (created_cols data pk pk_flag) rows) (columns data))
      (df_rows data) = df_rows data.
Proof.
  intros Hnd Hwf. rewrite <- (map_id (df_rows data)) at 2.
  apply map_ext_in. intros r Hr. apply store_row_same.
  - exact Hnd.
  - apply created_cols_names.
  - unfold df_wf in Hwf. rewrite Forall_forall in Hwf.
    unfold columns. rewrite length_map. apply Hwf. now apply list_elem_of_In.
Qed.

Lemma insert_accepted_created (data : DataFrame) (pk : str) (pk_flag : bool) (j : nat) :
  NoDup (map upper (columns data)) ->
  df_wf data ->
  columns data !! j = Some pk ->
  (pk_flag = true ->
   NoDup (map (cell j) (df_rows data)) /\ VNull ∉ map (cell j) (df_rows data)) ->
  insert_accepted upper (mkTable (created_cols data pk pk_flag) [])
    (mkDataFrame (df_cols data) (df_rows data)) = true.
Proof.
  intros Hnd Hwf Hj Hkeys. unfold insert_accepted.
  change (columns (mkDataFrame (df_cols data) (df_rows data))) with (columns data).
  cbn [df_rows t_cols].
  rewrite store_rows_created by assumption.
  rewrite (pk_admits_created data pk pk_flag j);
    [| now apply NoDup_fmap_1 in Hnd | exact Hj | exact Hkeys].
  rewrite andb_true_r. apply andb_true_iff. split.
  - unfold distinct_idents. now apply bool_decide_eq_true.
  - apply forallb_forall. intros l Hl. apply bool_decide_eq_true.
    apply list_elem_of_In, list_elem_of_lookup in Hl as [i Hi].
    destruct (created_cols_lookup data pk pk_flag i l Hi) as (c & Hc & Hname).
    exists i. apply (resolve_at upper _ i c l); [|exact Hc | now rewrite Hname].
    now rewrite created_cols_names.
Qed.

End FreshTable.

Section RoundTrip.

Variable upper : str -> str.
Variable lib : Library.








End RoundTrip.

(** ** The sample data: evaluations, instances and counterexamples *)

(** C8. On the line [Height: Boom Height: 10] the key is the text before
    the first colon, [Height], but [line.replace(key + ":", "")] removes
    the key text at both of its occurrences: the value read is
    [Boom  10], while the line without its prefix key and colon is
    [Boom Height: 10]. The colon inside the value and the word before it
    are lost, and [get_params_from_txt] returns the shortened value. *)
Theorem C8_embedded_key_text_removed :
  line_key (ln "Height: Boom Height: 10") = cp "Height"
  /\ line_value (ln "Height: Boom Height: 10") = cp "Boom  10"
  /\ spec_line_value (ln "Height: Boom Height: 10") = cp "Boom Height: 10"
  /\ line_value (ln "Height: Boom Height: 10")
       <> spec_line_value (ln "Height: Boom Height: 10")
  /\ get_params_from_txt ex_height_doc (cp "Sensor History") 0 1 =
       Some (mkDataFrame [(cp "Height", D_object)] [[VStr (cp "Boom  10")]]).
Proof.
  repeat split; try (vm_compute; reflexivity).
  vm_compute. discriminate.
Qed.









(** C5 at a batch without the key column and at an empty batch, on the
    empty database. *)
Lemma C5_ensure_schema_refuses_witness :
  (exists st',
     create_alter_mssql_table ascii_upper ex_name ex_keyless_batch ex_pk true
       ex_empty_store = (Returned false, st')
     /\ st_tables st' = st_tables ex_empty_store
     /\ st_log st' = [Q_has_table ex_name])
  /\ (exists st',
        create_alter_mssql_table ascii_upper ex_name ex_empty_batch ex_pk true
          ex_empty_store = (Returned false, st')
        /\ st_tables st' = st_tables ex_empty_store
        /\ st_log st' = [Q_has_table ex_name]).
Proof.
  split.
  - apply (proj1 (C5_ensure_schema_refuses ascii_upper ex_empty_store ex_name
                    ex_keyless_batch ex_pk true)).
    + reflexivity.
    + apply (bool_decide_unpack _); vm_compute; exact I.
    + reflexivity.
  - apply (proj2 (C5_ensure_schema_refuses ascii_upper ex_empty_store ex_name
                    ex_empty_batch ex_pk true)).
    reflexivity.
Defined.

(** C6 at the sample document: [Site Number:] is first found in line 2,
    whose value is [42]; a needle that occurs nowhere gives the record
    with row number -1. *)
Lemma C6_search_param_txt_witness :
  search_param_txt ex_doc (cp "Site Number:") = mkMatch 2 (cp "42")
  /\ search_param_txt ex_doc (cp "Serial Number") = mkMatch (-1) [].
Proof.
  split.
  - apply (proj1 (C6_search_param_txt ex_doc (cp "Site Number:"))
             [ln "Export Parameters"] (ln "Site Number: 42")
             [ln "Time: 12:30:00"; ln ""; ln "Timestamp"]).
    + reflexivity.
    + apply Forall_forall. repeat constructor.
      apply contains_false_spec. vm_compute. reflexivity.
    + apply contains_spec. vm_compute. reflexivity.
  - apply (proj2 (C6_search_param_txt ex_doc (cp "Serial Number"))).
    apply Forall_forall.
    repeat constructor; apply contains_false_spec; vm_compute; reflexivity.
Defined.

(** C7 fails as stated. With the start line 1 and no line passed over,
    the start line [A: 1] is itself read as a parameter, and the three
    lines with the key [B] give one column: the frame has the two columns
    [A] and [B], while three lines that are not blank stand between the
    start line and the first blank line (four with the start line). *)
Lemma C7_read_parameter_block_counterexample :
  get_params_from_txt ex_dup_doc (cp "A") 1 0 = Some ex_dup_frame
  /\ columns ex_dup_frame = [cp "A"; cp "B"]
  /\ spec_block ex_dup_doc 1 0 = [ln "B: 2"; ln "B: 3"; ln "B: 4"]
  /\ length (columns ex_dup_frame) <> length (spec_block ex_dup_doc 1 0)
  /\ length (columns ex_dup_frame) <> length (spec_block ex_dup_doc 0 0).
Proof.
  repeat split; try (vm_compute; reflexivity); vm_compute; discriminate.
Qed.

(** C7, as amended, at the sample document: below the header line, which
    is passed over, two lines are read up to the blank line, and the
    frame has their two keys. *)
Lemma C7_read_parameter_block_witness :
  exists df,
    get_params_from_txt ex_doc (cp "Export Parameters") 0 1 = Some df
    /\ columns df = [cp "Site Number"; cp "Time"]
    /\ length (columns df) = 2%nat.
Proof.
  destruct (C7_read_parameter_block ex_doc (cp "Export Parameters") 0 1
              [ln "Site Number: 42"; ln "Time: 12:30:00"] (ln "")
              [ln "Timestamp"])
    as (df & Hdf & _ & _ & _ & _ & Hcols).
  - reflexivity.
  - lia.
  - reflexivity.
  - repeat constructor; intros H; vm_compute in H; discriminate H.
  - reflexivity.
  - exists df. destruct Hcols as [Hc Hl].
    + apply (bool_decide_unpack _); vm_compute; exact I.
    + split; [exact Hdf | split; [rewrite Hc; reflexivity | exact Hl]].
Defined.

(** C9 fails as stated. An insert into a table that does not exist makes
    the database raise inside the body, and a schema call on a database
    that cannot be reached raises as well; both calls end normally, and
    the caller sees no exception. *)
Lemma C9_store_error_counterexample :
  fst (insert_body ascii_upper ex_lib ex_name ex_batch ex_pk VNull [] ex_empty_store)
    = Raised SQLAlchemyError
  /\ fst (insert_data_msssql ascii_upper ex_lib ex_name ex_batch ex_pk VNull []
            ex_empty_store) = Returned None
  /\ fst (create_alter_body ascii_upper ex_name ex_batch ex_pk true
            ex_offline_store) = Raised SQLAlchemyError
  /\ fst (create_alter_mssql_table ascii_upper ex_name ex_batch ex_pk true
            ex_offline_store) = Returned false.
Proof.
  repeat split; vm_compute; reflexivity.
Qed.

(** C9, as amended, at a database that cannot be reached: both calls end
    normally after their first statement. *)
Lemma C9_store_error_handled_witness :
  (exists st',
     create_alter_mssql_table ascii_upper ex_name ex_batch ex_pk true
       ex_offline_store = (Returned false, st')
     /\ st_log st' = [Q_has_table ex_name])
  /\ (exists r st',
        insert_data_msssql ascii_upper ex_lib ex_name ex_batch ex_pk (VStr []) []
          ex_offline_store = (Returned r, st')
        /\ st_log st' = [Q_select ex_name ex_pk]).
Proof.
  destruct (C9_store_error_handled ascii_upper ex_lib ex_name ex_batch ex_pk true
              (VStr []) [] ex_offline_store)
    as [(b & st1 & Hrun1 & Hcaught & Hoff1 & _) (r & st2 & Hrun2 & _ & Hoff2 & _)].
  destruct (Hoff1 eq_refl) as [Hbody Hlog1].
  destruct (Hcaught _ _ Hbody) as [-> _].
  destruct (Hoff2 eq_refl) as [_ Hlog2].
  split.
  - exists st1. split; [exact Hrun1 | exact Hlog1].
  - exists r, st2. split; [exact Hrun2 | exact Hlog2].
Defined.

(** C10 at a document that ends right after a parameter line: nothing is
    returned. *)
Lemma C10_unterminated_block_witness :
  get_params_from_txt ex_open_doc (cp "Export Parameters") 0 1 = None.
Proof.
  apply C10_unterminated_block.
  - reflexivity.
  - lia.
  - repeat constructor; intros H; vm_compute in H; discriminate H.
Defined.

(** * Further properties of the text scanner *)

(** ** Trimming *)

Lemma lstrip_suffix (s : str) :
  exists ws, s = ws ++ lstrip s /\ Forall (fun c => py_isspace c = true) ws.
Proof.
  induction s as [|c s (ws & Hs & Hws)]; simpl.
  - now exists [].
  - destruct (py_isspace c) eqn:Hc.
    + exists (c :: ws). split; [now rewrite Hs at 1 | now constructor].
    + now exists [].
Qed.

Lemma lstrip_head (s : str) (c : char) (s' : str) :
  lstrip s = c :: s' -> py_isspace c = false.
Proof.
  induction s as [|a s IH]; simpl; [discriminate|].
  destruct (py_isspace a) eqn:Ha; [exact IH|].
  intros [= <- _]. exact Ha.
Qed.

Lemma lstrip_fixed (s : str) :
  lstrip s = s <-> s = [] \/ exists c s', s = c :: s' /\ py_isspace c = false.
Proof.
  split.
  - destruct s as [|c s']; [now left|]. intros H. right. exists c, s'.
    split; [reflexivity|]. now apply (lstrip_head _ _ _ H).
  - intros [->|(c & s' & -> & Hc)]; simpl; [reflexivity|now rewrite Hc].
Qed.

Lemma lstrip_idem (s : str) : lstrip (lstrip s) = lstrip s.
Proof.
  apply lstrip_fixed. destruct (lstrip s) as [|c s'] eqn:H; [now left|].
  right. exists c, s'. split; [reflexivity|]. now apply (lstrip_head _ _ _ H).
Qed.

Lemma lstrip_spaces (ws s : str) :
  Forall (fun c => py_isspace c = true) ws -> lstrip (ws ++ s) = lstrip s.
Proof.
  induction 1 as [|c ws Hc _ IH]; simpl; [reflexivity|]. now rewrite Hc.
Qed.

Lemma lstrip_app_solid (a : str) (c : char) (b : str) :
  py_isspace c = false -> lstrip (a ++ c :: b) = lstrip a ++ c :: b.
Proof.
  intros Hc. induction a as [|x a IH]; simpl.
  - now rewrite Hc.
  - destruct (py_isspace x); [exact IH|reflexivity].
Qed.

Lemma rstrip_prefix (s : str) :
  exists ws, s = rstrip s ++ ws /\ Forall (fun c => py_isspace c = true) ws.
Proof.
  unfold rstrip. destruct (lstrip_suffix (rev s)) as (ws & Hs & Hws).
  exists (rev ws). split.
  - rewrite <- rev_app_distr, <- Hs. now rewrite rev_involutive.
  - now apply Forall_rev.
Qed.

Lemma rstrip_idem (s : str) : rstrip (rstrip s) = rstrip s.
Proof. unfold rstrip. now rewrite rev_involutive, lstrip_idem. Qed.

Lemma rstrip_app_solid (a : str) (c : char) (b : str) :
  py_isspace c = false -> rstrip (a ++ c :: b) = a ++ c :: rstrip b.
Proof.
  intros Hc. unfold rstrip.
  rewrite rev_app_distr. simpl rev. rewrite <- app_assoc. simpl.
  rewrite (lstrip_app_solid _ _ _ Hc), rev_app_distr. simpl.
  now rewrite rev_involutive, <- app_assoc.
Qed.

Lemma lstrip_rstrip_fixed (s : str) : lstrip s = s -> lstrip (rstrip s) = rstrip s.
Proof.
  intros H. apply lstrip_fixed. apply lstrip_fixed in H.
  destruct H as [->|(c & s' & -> & Hc)]; [now left|].
  right. change (c :: s') with ([] ++ c :: s').
  rewrite (rstrip_app_solid _ _ _ Hc). now exists c, (rstrip s').
Qed.

Lemma strip_idem (s : str) : trimmed (strip s).
Proof.
  unfold trimmed, strip.
  rewrite (lstrip_rstrip_fixed (lstrip s)) by apply lstrip_idem.
  apply rstrip_idem.
Qed.

Lemma elem_of_lstrip (c : char) (s : str) : c ∈ lstrip s -> c ∈ s.
Proof.
  destruct (lstrip_suffix s) as (ws & Hs & _). intros H.
  rewrite Hs. apply elem_of_app. now right.
Qed.

Lemma elem_of_rstrip (c : char) (s : str) : c ∈ rstrip s -> c ∈ s.
Proof.
  destruct (rstrip_prefix s) as (ws & Hs & _). intros H.
  rewrite Hs. apply elem_of_app. now left.
Qed.

Lemma elem_of_strip (c : char) (s : str) : c ∈ strip s -> c ∈ s.
Proof. intros H. now apply elem_of_lstrip, elem_of_rstrip. Qed.

(** ** [search_param_txt]: what every result looks like *)

Lemma replace_space_map (s : str) :
  py_replace [SPACE] [UNDERSCORE] s = map underscore s.
Proof.
  unfold py_replace. induction s as [|c s IH]; [reflexivity|].
  cbn [replace_scan prefixb length Nat.pred app map].
  unfold underscore at 1. rewrite N.eqb_sym, andb_true_r.
  destruct (c =? SPACE)%N; cbn [app]; now rewrite IH.
Qed.

Lemma underscore_solid (c : char) : py_isspace c = false -> underscore c = c.
Proof.
  unfold underscore. destruct (c =? SPACE)%N eqn:E; [|reflexivity].
  apply N.eqb_eq in E as ->. discriminate.
Qed.

Lemma lstrip_map_underscore (s : str) :
  lstrip s = s -> lstrip (map underscore s) = map underscore s.
Proof.
  intros H. apply lstrip_fixed. apply lstrip_fixed in H.
  destruct H as [->|(c & s' & -> & Hc)]; [now left|].
  right. exists c, (map underscore s'). simpl.
  now rewrite (underscore_solid _ Hc).
Qed.

Lemma trimmed_map_underscore (s : str) :
  trimmed s -> trimmed (map underscore s).
Proof.
  unfold trimmed, strip. intros H.
  assert (Hl : lstrip s = s).
  { rewrite <- H at 1. rewrite lstrip_rstrip_fixed by apply lstrip_idem.
    exact H. }
  assert (Hr : rstrip s = s) by now rewrite Hl in H.
  rewrite (lstrip_map_underscore _ Hl).
  unfold rstrip in *. rewrite <- map_rev.
  rewrite lstrip_map_underscore.
  - now rewrite map_rev, rev_involutive.
  - rewrite <- (rev_involutive (lstrip (rev s))), Hr. reflexivity.
Qed.

Lemma space_not_in_underscored (s : str) : SPACE ∉ map underscore s.
Proof.
  intros H. apply list_elem_of_fmap in H as (c & Hc & _).
  unfold underscore in Hc. destruct (c =? SPACE)%N eqn:E; [discriminate|].
  apply N.eqb_neq in E. congruence.
Qed.

Lemma search_lines_result (needle : str) (doc : list str) (n : Z) :
  let r := search_lines needle n doc in
  (row_num r = (-1) /\ param_value r = []
   /\ Forall (fun l => contains needle l = false) doc)
  \/ (exists i line,
        row_num r = n + Z.of_nat i
        /\ doc !! i = Some line
        /\ contains needle line = true
        /\ Forall (fun l => contains needle l = false) (take i doc)
        /\ param_value r = map underscore (strip (py_replace needle [] line))).
Proof.
  cbv zeta. revert n.
  induction doc as [|l doc IH]; intros n; cbn [search_lines].
  - left. now repeat split.
  - destruct (contains needle l) eqn:Hl.
    + right. exists O, l. cbn [row_num param_value take].
      rewrite replace_space_map.
      repeat split; [lia | exact Hl | constructor].
    + destruct (IH (n + 1)) as [(H1 & H2 & H3)|(i & line & H1 & H2 & H3 & H4 & H5)].
      * left. repeat split; [exact H1 | exact H2 | now constructor].
      * right. exists (S i), line. cbn [take].
        repeat split; [lia | exact H2 | exact H3 | now constructor | exact H5].
Qed.

Lemma search_param_txt_value (doc : list str) (needle : str) :
  let r := search_param_txt doc needle in
  (SPACE ∉ param_value r)
  /\ trimmed (param_value r)
  /\ (param_value r <> [] -> 0 < row_num r).
Proof.
  cbv zeta. unfold search_param_txt.
  destruct (search_lines_result needle doc 1)
    as [(H1 & H2 & _)|(i & line & H1 & H2 & H3 & _ & H5)].
  - rewrite H2. repeat split; [apply not_elem_of_nil|contradiction].
  - rewrite H5, H1. repeat split;
      [apply space_not_in_underscored|apply trimmed_map_underscore, strip_idem|lia].
Qed.

(** X1. Every result of [search_param_txt] is either the record with row
    number -1 and an empty value, or has a row number between 1 and the
    number of lines, naming a line that contains the needle. In both
    cases the value holds no space character and has no white space at
    either end. *)
Theorem search_param_txt_shape (doc : list str) (needle : str) :
  let r := search_param_txt doc needle in
  ((row_num r = (-1) /\ param_value r = [])
   \/ (1 <= row_num r <= Z.of_nat (length doc)
       /\ exists line,
            line_at doc (row_num r) = Some line /\ is_substring needle line))
  /\ (SPACE ∉ param_value r)
  /\ trimmed (param_value r).
Proof.
  cbv zeta. unfold search_param_txt.
  destruct (search_lines_result needle doc 1)
    as [(H1 & H2 & _)|(i & line & H1 & H2 & H3 & _ & H5)].
  - rewrite H1, H2. split; [now left|]. split.
    + apply not_elem_of_nil.
    + reflexivity.
  - rewrite H5. split; [right|split].
    + pose proof (lookup_lt_Some _ _ _ H2) as Hi. split; [lia|].
      exists line. split; [|now apply contains_spec].
      unfold line_at. rewrite H1.
      replace (0 <? 1 + Z.of_nat i) with true by (symmetry; apply Z.ltb_lt; lia).
      now replace (Z.to_nat (1 + Z.of_nat i - 1)) with i by lia.
    + apply space_not_in_underscored.
    + apply trimmed_map_underscore, strip_idem.
Qed.

(** ** [get_params_from_txt]: what every frame looks like *)

Lemma dict_set_entries (k v : str) (d : py_dict) (kv : str * str) :
  kv ∈ dict_set k v d -> kv ∈ d \/ kv = (k, v).
Proof.
  induction d as [|[k' v'] d IH]; simpl.
  - intros H. apply list_elem_of_singleton in H. now right.
  - destruct (decide (k' = k)) as [->|Hne]; intros H;
      apply elem_of_cons in H as [H|H].
    + now right.
    + left. now apply elem_of_cons; right.
    + left. now apply elem_of_cons; left.
    + destruct (IH H) as [H'|H']; [left; now apply elem_of_cons; right | now right].
Qed.

Lemma dict_update_entries (kvs : list (str * str)) (d : py_dict) (kv : str * str) :
  kv ∈ dict_update d kvs -> kv ∈ d \/ kv ∈ kvs.
Proof.
  revert d. induction kvs as [|[k v] kvs IH]; intros d; [now left|].
  rewrite dict_update_cons. intros H. destruct (IH _ H) as [H'|H'].
  - destruct (dict_set_entries _ _ _ _ H') as [H''| ->]; [now left|].
    right. now apply elem_of_cons; left.
  - right. now apply elem_of_cons; right.
Qed.

Lemma dict_set_there (k v : str) (d : py_dict) : (k, v) ∈ dict_set k v d.
Proof.
  induction d as [|[k' v'] d IH]; simpl.
  - now apply list_elem_of_singleton.
  - destruct (decide (k' = k)) as [->|Hne]; apply elem_of_cons; [now left|now right].
Qed.

Lemma dict_set_other (k v k' v' : str) (d : py_dict) :
  k <> k' -> (k, v) ∈ d -> (k, v) ∈ dict_set k' v' d.
Proof.
  intros Hne. induction d as [|[k0 v0] d IH]; simpl; intros H.
  - now apply elem_of_nil in H.
  - apply elem_of_cons in H as [H|H].
    + injection H as <- <-. destruct (decide (k = k')); [contradiction|].
      now apply elem_of_cons; left.
    + destruct (decide (k0 = k')); apply elem_of_cons; right; [exact H|now apply IH].
Qed.

Lemma dict_update_keeps (kvs : list (str * str)) (d : py_dict) (k v : str) :
  k ∉ map fst kvs -> (k, v) ∈ d -> (k, v) ∈ dict_update d kvs.
Proof.
  revert d. induction kvs as [|[k' v'] kvs IH]; intros d Hk H; [exact H|].
  rewrite dict_update_cons. simpl in Hk. apply not_elem_of_cons in Hk as [Hne Hk].
  apply IH; [exact Hk|]. now apply dict_set_other.
Qed.

Lemma dict_update_app (d : py_dict) (kvs1 kvs2 : list (str * str)) :
  dict_update d (kvs1 ++ kvs2) = dict_update (dict_update d kvs1) kvs2.
Proof. unfold dict_update. apply fold_left_app. Qed.

Lemma dict_update_last (d : py_dict) (kvs1 kvs2 : list (str * str)) (k v : str) :
  k ∉ map fst kvs2 -> (k, v) ∈ dict_update d (kvs1 ++ (k, v) :: kvs2).
Proof.
  intros Hk. rewrite dict_update_app, dict_update_cons.
  apply dict_update_keeps; [exact Hk|]. apply dict_set_there.
Qed.

Lemma combine_line_entries (block : list str) :
  combine (map line_key block) (map line_value block) =
    map (fun l => (line_key l, line_value l)) block.
Proof. induction block as [|l block IH]; simpl; [reflexivity|now rewrite IH]. Qed.

Lemma py_split_no_sep (sep : char) (s : str) :
  Forall (fun w => sep ∉ w) (py_split sep s).
Proof.
  induction s as [|c s IH]; simpl.
  - constructor; [apply not_elem_of_nil|constructor].
  - destruct (c =? sep)%N eqn:E.
    + constructor; [apply not_elem_of_nil|exact IH].
    + apply N.eqb_neq in E. destruct (py_split sep s) as [|w ws].
      * constructor; [|constructor]. intros H.
        apply list_elem_of_singleton in H. congruence.
      * inversion IH as [|? ? Hw Hws]; subst. constructor; [|exact Hws].
        intros H. apply elem_of_cons in H as [H|H]; [congruence|contradiction].
Qed.

Lemma line_key_shape (line : str) :
  trimmed (line_key line) /\ (COLON ∉ line_key line).
Proof.
  split; [apply strip_idem|]. unfold line_key, param_split0.
  intros H. apply elem_of_strip in H.
  pose proof (py_split_no_sep COLON (strip line)) as Hs.
  destruct (py_split COLON (strip line)) as [|w ws]; simpl in H.
  - now apply elem_of_nil in H.
  - inversion Hs; subst. contradiction.
Qed.

Lemma re_sub_ntr_clean (s : str) (c : char) :
  c ∈ re_sub_ntr s -> c <> LF /\ c <> TAB /\ c <> CR.
Proof.
  unfold re_sub_ntr. intros H. apply list_elem_of_In, filter_In in H as [_ H].
  apply negb_true_iff in H. apply orb_false_iff in H as [H H3].
  apply orb_false_iff in H as [H1 H2].
  apply N.eqb_neq in H1, H2, H3. now repeat split.
Qed.

Lemma line_value_shape (line : str) :
  trimmed (line_value line)
  /\ (LF ∉ line_value line) /\ (TAB ∉ line_value line) /\ (CR ∉ line_value line).
Proof.
  split; [apply strip_idem|]. unfold line_value.
  repeat split; intros H; apply elem_of_strip, re_sub_ntr_clean in H;
    now destruct H as (? & ? & ?).
Qed.

Lemma read_params_inv (skip_rows skip_count : Z) (ks vs lines : list str)
    (df : DataFrame) :
  read_params skip_rows skip_count ks vs lines = Some df ->
  exists block,
    df = DataFrame_of_dict
           (dict_zip (ks ++ map line_key block) (vs ++ map line_value block)).
Proof.
  revert skip_count ks vs.
  induction lines as [|line lines IH]; intros sc ks vs; cbn [read_params];
    [discriminate|].
  destruct (sc =? skip_rows).
  - destruct (decide (strip line = [])).
    + intros [= <-]. exists []. simpl. now rewrite !app_nil_r.
    + intros H. destruct (IH _ _ _ H) as (block & ->).
      exists (line :: block). simpl. now rewrite <- !app_assoc.
  - apply IH.
Qed.

Lemma get_params_from_txt_inv (doc : list str) (header : str)
    (param_line skip_rows : Z) (df : DataFrame) :
  get_params_from_txt doc header param_line skip_rows = Some df ->
  df = empty_DataFrame
  \/ exists block,
       df = DataFrame_of_dict
              (dict_zip (map line_key block) (map line_value block)).
Proof.
  unfold get_params_from_txt. cbv zeta.
  destruct ((0 <? start_row doc header param_line) && (0 <=? skip_rows)).
  - destruct (skip_lines _ doc) as [rest|]; [|discriminate].
    intros H. right. apply read_params_inv in H as (block & ->). now exists block.
  - intros [= <-]. now left.
Qed.

(** X2. Every frame [get_params_from_txt] returns is either the empty
    frame [pd.DataFrame()] or has exactly one row with one cell per
    column; its column names are pairwise distinct, have no white space at
    either end and hold no colon; every cell is a string without white
    space at either end and without line feed, tab or carriage return. *)
Theorem get_params_from_txt_frame (doc : list str) (header : str)
    (param_line skip_rows : Z) (df : DataFrame) :
  get_params_from_txt doc header param_line skip_rows = Some df ->
  df = empty_DataFrame
  \/ ((exists row, df_rows df = [row] /\ length row = length (df_cols df))
      /\ NoDup (columns df)
      /\ Forall (fun c => snd c = D_object /\ trimmed (fst c) /\ (COLON ∉ fst c))
                (df_cols df)
      /\ Forall (Forall (fun v => exists s,
                           v = VStr s /\ trimmed s
                           /\ (LF ∉ s) /\ (TAB ∉ s) /\ (CR ∉ s)))
                (df_rows df)).
Proof.
  intros H. apply get_params_from_txt_inv in H as [->|(block & ->)]; [now left|].
  right. set (d := dict_zip _ _).
  assert (Hd : forall kv, kv ∈ d -> exists l, kv = (line_key l, line_value l)).
  { intros kv Hkv. unfold d, dict_zip in Hkv. fold (dict_update [] (combine (map line_key block) (map line_value block))) in Hkv.
    apply dict_update_entries in Hkv as [Hkv|Hkv]; [now apply elem_of_nil in Hkv|].
    rewrite combine_line_entries in Hkv.
    apply list_elem_of_fmap in Hkv as (l & -> & _). now exists l. }
  split; [|split; [|split]].
  - eexists. split; [reflexivity|]. simpl. now rewrite !length_map.
  - rewrite columns_DataFrame_of_dict. apply dict_zip_keys_NoDup.
  - simpl. apply Forall_forall. intros c Hc.
    apply list_elem_of_fmap in Hc as (kv & -> & Hkv).
    destruct (Hd _ Hkv) as (l & ->). simpl.
    split; [reflexivity|apply line_key_shape].
  - simpl. constructor; [|constructor]. apply Forall_forall. intros v Hv.
    apply list_elem_of_fmap in Hv as (kv & -> & Hkv).
    destruct (Hd _ Hkv) as (l & ->). simpl.
    exists (line_value l). split; [reflexivity|apply line_value_shape].
Qed.

Lemma read_params_one_row (skip_rows skip_count : Z) (ks vs lines : list str) :
  read_params skip_rows skip_count ks vs lines <> Some empty_DataFrame.
Proof.
  intros H. apply read_params_inv in H as (block & H). discriminate H.
Qed.

(** X3. [get_params_from_txt] returns the empty frame [pd.DataFrame()]
    exactly when the start row is not positive or [skip_rows] is
    negative; in particular when the header is searched for
    ([param_line = 0]) and no line contains it. *)
Theorem get_params_from_txt_empty_frame (doc : list str) (header : str)
    (param_line skip_rows : Z) :
  (get_params_from_txt doc header param_line skip_rows = Some empty_DataFrame
   <-> start_row doc header param_line <= 0 \/ skip_rows < 0)
  /\ ((forall l, l ∈ doc -> ~ is_substring header l) ->
      get_params_from_txt doc header 0 skip_rows = Some empty_DataFrame).
Proof.
  assert (Hiff : forall p,
    get_params_from_txt doc header p skip_rows = Some empty_DataFrame
    <-> start_row doc header p <= 0 \/ skip_rows < 0).
  { intros p. unfold get_params_from_txt. cbv zeta.
    destruct (0 <? start_row doc header p) eqn:E1;
      [apply Z.ltb_lt in E1|apply Z.ltb_ge in E1];
      (destruct (0 <=? skip_rows) eqn:E2;
        [apply Z.leb_le in E2|apply Z.leb_gt in E2]); cbn [andb].
    - split; [|lia]. destruct (skip_lines _ doc); [|discriminate].
      intros H. now apply read_params_one_row in H.
    - split; [now right|reflexivity].
    - split; [now left|reflexivity].
    - split; [now left|reflexivity]. }
  split; [apply Hiff|].
  intros Habs. apply Hiff. left. unfold start_row, search_param_txt. simpl.
  rewrite search_lines_absent; [simpl; lia|].
  apply Forall_forall. intros l Hl. apply contains_false_spec. now apply Habs.
Qed.

(** X4. When the start line lies past the end of the file, or fewer than
    [skip_rows] lines follow from the start line on, nothing is returned
    ([None]): neither a frame nor the empty frame. *)
Theorem get_params_from_txt_past_end (doc : list str) (header : str)
    (param_line skip_rows : Z) :
  0 < start_row doc header param_line ->
  0 <= skip_rows ->
  Z.of_nat (length doc) < start_row doc header param_line + skip_rows ->
  get_params_from_txt doc header param_line skip_rows = None.
Proof.
  intros Hrow Hskip Hlen. rewrite get_params_from_txt_unfold by assumption.
  unfold lines_read. rewrite drop_ge by lia. reflexivity.
Qed.

Lemma get_params_from_txt_past_end_witness :
  get_params_from_txt ex_doc (cp "Channel") 6 0 = None
  /\ get_params_from_txt ex_doc (cp "Timestamp") 0 1 = None.
Proof.
  split; apply get_params_from_txt_past_end;
    solve [reflexivity | vm_compute; reflexivity | vm_compute; discriminate].
Defined.

(** X5. When several lines of a block have the same key, the column of
    that key holds the value of the last of them: for a line [l] of the
    block with no later line of the same key, the frame has exactly one
    column named by the key of [l], and its cell is the value of [l]. *)
Theorem duplicate_key_last_wins (doc : list str) (header : str)
    (param_line skip_rows : Z) (pre : list str) (l : str) (post : list str)
    (stop : str) (rest : list str) :
  0 < start_row doc header param_line ->
  0 <= skip_rows ->
  lines_read doc (start_row doc header param_line) skip_rows =
    (pre ++ l :: post) ++ stop :: rest ->
  Forall (fun l => ~ blank l) (pre ++ l :: post) ->
  blank stop ->
  line_key l ∉ map line_key post ->
  exists df row i,
    get_params_from_txt doc header param_line skip_rows = Some df
    /\ df_rows df = [row]
    /\ columns df !! i = Some (line_key l)
    /\ row !! i = Some (VStr (line_value l))
    /\ forall j, columns df !! j = Some (line_key l) -> j = i.
Proof.
  intros Hrow Hskip Hread Hblock Hstop Hlast.
  rewrite get_params_from_txt_unfold, Hread by assumption.
  rewrite (read_params_block _ [] [] _ _ _ Hblock Hstop). cbn [app].
  set (d := dict_zip _ _).
  assert (Hin : (line_key l, line_value l) ∈ d).
  { unfold d, dict_zip.
    rewrite combine_line_entries, map_app. cbn [map].
    apply (dict_update_last [] _ _ (line_key l) (line_value l)).
    rewrite map_map. exact Hlast. }
  apply list_elem_of_lookup_1 in Hin as (i & Hi).
  exists (DataFrame_of_dict d), (map (fun kv => VStr (snd kv)) d), i.
  assert (Hcol : columns (DataFrame_of_dict d) !! i = Some (line_key l)).
  { rewrite columns_DataFrame_of_dict. unfold dict_keys_of.
    change (map fst d) with (fst <$> d). now rewrite list_lookup_fmap, Hi. }
  repeat split.
  - exact Hcol.
  - change (map (fun kv => VStr (snd kv)) d) with ((fun kv : str * str => VStr (snd kv)) <$> d).
    now rewrite list_lookup_fmap, Hi.
  - intros j Hj.
    assert (Hnd : NoDup (columns (DataFrame_of_dict d))).
    { rewrite columns_DataFrame_of_dict. apply dict_zip_keys_NoDup. }
    exact (NoDup_lookup _ _ _ _ Hnd Hj Hcol).
Qed.

Lemma duplicate_key_last_wins_witness :
  exists df row i,
    get_params_from_txt ex_dup_doc (cp "A") 1 0 = Some df
    /\ df_rows df = [row]
    /\ columns df !! i = Some (cp "B")
    /\ row !! i = Some (VStr (cp "4"))
    /\ forall j, columns df !! j = Some (cp "B") -> j = i.
Proof.
  apply (duplicate_key_last_wins ex_dup_doc (cp "A") 1 0
           [ln "A: 1"; ln "B: 2"; ln "B: 3"] (ln "B: 4") [] (ln "") []).
  - reflexivity.
  - lia.
  - reflexivity.
  - repeat constructor; intros H; vm_compute in H; discriminate H.
  - reflexivity.
  - apply not_elem_of_nil.
Defined.

Lemma get_params_from_txt_frame_witness :
  let df := DataFrame_of_dict
              [(cp "Site Number", cp "42"); (cp "Time", cp "12:30:00")] in
  df = empty_DataFrame
  \/ ((exists row, df_rows df = [row] /\ length row = length (df_cols df))
      /\ NoDup (columns df)
      /\ Forall (fun c => snd c = D_object /\ trimmed (fst c) /\ (COLON ∉ fst c))
                (df_cols df)
      /\ Forall (Forall (fun v => exists s,
                           v = VStr s /\ trimmed s
                           /\ (LF ∉ s) /\ (TAB ∉ s) /\ (CR ∉ s)))
                (df_rows df)).
Proof.
  apply (get_params_from_txt_frame ex_doc (cp "Export Parameters") 0 1).
  vm_compute. reflexivity.
Defined.

(** ** [get_params_from_txt]: values with colons *)

Lemma py_split_hd (sep : char) (k rest : str) :
  sep ∉ k -> hd [] (py_split sep (k ++ sep :: rest)) = k.
Proof.
  induction k as [|c k IH]; intros Hk; cbn [app py_split].
  - now rewrite N.eqb_refl.
  - apply not_elem_of_cons in Hk as [Hc Hk].
    destruct (c =? sep)%N eqn:E; [apply N.eqb_eq in E; congruence|].
    specialize (IH Hk). destruct (py_split sep (k ++ sep :: rest)); simpl in *;
      now subst.
Qed.

Lemma py_replace_spaces (old new ws s : str) (c : char) (old' : str) :
  old = c :: old' ->
  py_isspace c = false ->
  Forall (fun x => py_isspace x = true) ws ->
  py_replace old new (ws ++ s) = ws ++ py_replace old new s.
Proof.
  intros -> Hc. induction 1 as [|x ws Hx _ IH]; [reflexivity|].
  cbn [app]. rewrite py_replace_cons; [now rewrite IH|discriminate|].
  cbn [prefixb]. destruct (c =? x)%N eqn:E; [|reflexivity].
  apply N.eqb_eq in E. congruence.
Qed.

Lemma strip_spaces (ws s : str) :
  Forall (fun c => py_isspace c = true) ws -> strip (ws ++ s) = strip s.
Proof. intros H. unfold strip. now rewrite lstrip_spaces. Qed.

(** X6. For a line whose text before the first colon is a non-empty key,
    if the key followed by a colon does not occur again in the remainder
    of the line, the value read is that remainder, trimmed and without
    tab, line feed and carriage return: the colons of the remainder are
    kept. *)
Theorem line_value_keeps_colons (line k rest : str) :
  k <> [] ->
  COLON ∉ k ->
  lstrip line = k ++ COLON :: rest ->
  contains (k ++ [COLON]) rest = false ->
  line_key line = strip k
  /\ line_value line = strip (re_sub_ntr (strip rest))
  /\ line_value line = spec_line_value line.
Proof.
  intros Hk Hcolon Hline Hrest.
  assert (Hsplit : param_split0 line = k).
  { unfold param_split0, strip. rewrite Hline.
    rewrite rstrip_app_solid by reflexivity. now apply py_split_hd. }
  destruct (lstrip_suffix line) as (ws & Hws & Hspace).
  destruct k as [|c k']; [contradiction|].
  assert (Hc : py_isspace c = false) by exact (lstrip_head _ _ _ Hline).
  assert (Hval : line_value line = strip (re_sub_ntr (strip rest))).
  { unfold line_value. cbv zeta. rewrite Hsplit.
    rewrite Hws at 1. rewrite Hline.
    rewrite (py_replace_spaces _ _ ws _ c (k' ++ [COLON])) by easy.
    replace ((c :: k') ++ COLON :: rest) with (((c :: k') ++ [COLON]) ++ rest)
      by now rewrite <- app_assoc.
    rewrite py_replace_prefix by discriminate.
    rewrite py_replace_absent by easy.
    cbn [app]. now rewrite strip_spaces. }
  repeat split.
  - unfold line_key. now rewrite Hsplit.
  - exact Hval.
  - rewrite Hval. unfold spec_line_value, remove_prefix.
    rewrite Hsplit, Hline.
    replace ((c :: k') ++ COLON :: rest) with (((c :: k') ++ [COLON]) ++ rest)
      by now rewrite <- app_assoc.
    replace (prefixb ((c :: k') ++ [COLON]) (((c :: k') ++ [COLON]) ++ rest))
      with true by (symmetry; apply prefixb_spec; now exists rest).
    now rewrite drop_app_length.
Qed.

Lemma line_value_keeps_colons_witness :
  line_key (ln "Time: 12:30:00") = cp "Time"
  /\ line_value (ln "Time: 12:30:00") = cp "12:30:00".
Proof.
  destruct (line_value_keeps_colons (ln "Time: 12:30:00") (cp "Time")
              (cp " 12:30:00" ++ [LF])) as (H1 & H2 & _).
  - discriminate.
  - apply (bool_decide_unpack _); vm_compute; exact I.
  - reflexivity.
  - reflexivity.
  - split; [rewrite H1|rewrite H2]; reflexivity.
Defined.

(** ** [get_sensor_channels] *)

Lemma channel_scan_acc (acc : list Z) (n : Z) (lines : list str) :
  channel_scan acc n lines = acc ++ channel_scan [] n lines.
Proof.
  revert acc n. induction lines as [|l lines IH]; intros acc n; cbn [channel_scan].
  - now rewrite app_nil_r.
  - destruct (contains PARAM_CHANNEL l && negb (contains PARAM_CHANNEL_STOP l)).
    + rewrite (IH (acc ++ [n])), (IH ([] ++ [n])). now rewrite <- app_assoc.
    + apply IH.
Qed.

Lemma channel_scan_cons (n : Z) (l : str) (lines : list str) :
  channel_scan [] n (l :: lines) =
    if channel_line l then n :: channel_scan [] (n + 1) lines
    else channel_scan [] (n + 1) lines.
Proof.
  cbn [channel_scan]. unfold channel_line.
  destruct (contains PARAM_CHANNEL l && negb (contains PARAM_CHANNEL_STOP l));
    [|reflexivity].
  now rewrite channel_scan_acc.
Qed.

Lemma channel_scan_elem (n : Z) (lines : list str) (x : Z) :
  x ∈ channel_scan [] n lines <->
  exists i line,
    x = n + Z.of_nat i /\ lines !! i = Some line /\ channel_line line = true.
Proof.
  revert n. induction lines as [|l lines IH]; intros n.
  - simpl. split; [intros H; now apply elem_of_nil in H|].
    intros (i & line & _ & H & _). discriminate H.
  - rewrite channel_scan_cons. split.
    + destruct (channel_line l) eqn:Hl; intros H.
      * apply elem_of_cons in H as [->|H].
        -- exists O, l. repeat split; [lia|exact Hl].
        -- apply IH in H as (i & line & -> & H1 & H2).
           exists (S i), line. repeat split; [lia|exact H1|exact H2].
      * apply IH in H as (i & line & -> & H1 & H2).
        exists (S i), line. repeat split; [lia|exact H1|exact H2].
    + intros (i & line & -> & H1 & H2). destruct i as [|i]; simpl in H1.
      * injection H1 as ->. rewrite H2. apply elem_of_cons. left. lia.
      * assert (H : n + Z.of_nat (S i) ∈ channel_scan [] (n + 1) lines).
        { apply IH. exists i, line. repeat split; [lia|exact H1|exact H2]. }
        destruct (channel_line l); [apply elem_of_cons; now right|exact H].
Qed.

Lemma channel_scan_increasing (n : Z) (lines : list str) (i j : nat) (x y : Z) :
  channel_scan [] n lines !! i = Some x ->
  channel_scan [] n lines !! j = Some y ->
  (i < j)%nat ->
  x < y.
Proof.
  revert n i j. induction lines as [|l lines IH]; intros n i j; [discriminate|].
  rewrite channel_scan_cons. destruct (channel_line l); [|apply IH].
  destruct i as [|i], j as [|j]; simpl; try lia.
  - intros [= <-] Hy _. apply list_elem_of_lookup_2, channel_scan_elem in Hy
      as (k & _ & -> & _). lia.
  - intros Hx Hy Hij. apply (IH (n + 1) i j Hx Hy). lia.
Qed.

Lemma search_param_txt_row_bound (doc : list str) (needle : str) :
  row_num (search_param_txt doc needle) <= Z.of_nat (length doc).
Proof.
  unfold search_param_txt.
  destruct (search_lines_result needle doc 1)
    as [(H1 & _)|(i & line & H1 & H2 & _)]; rewrite H1; [lia|].
  pose proof (lookup_lt_Some _ _ _ H2). lia.
Qed.

Lemma get_sensor_channels_run (doc : list str) (header : str) :
  let h := row_num (search_param_txt doc header) in
  get_sensor_channels doc header =
    if 0 <? h
    then Some (ChannelLines (channel_scan [] (h + 1) (drop (Z.to_nat h) doc)))
    else Some NoChannels.
Proof.
  cbv zeta. unfold get_sensor_channels. cbv zeta.
  pose proof (search_param_txt_row_bound doc header) as Hb.
  destruct (0 <? row_num (search_param_txt doc header)) eqn:E; [|reflexivity].
  apply Z.ltb_lt in E. rewrite skip_lines_drop.
  destruct (decide _) as [_|]; [reflexivity|lia].
Qed.

Lemma channel_scan_lines (doc : list str) (h n : Z) :
  0 <= h ->
  n ∈ channel_scan [] (h + 1) (drop (Z.to_nat h) doc) <->
  h < n /\ exists line, line_at doc n = Some line /\ channel_line line = true.
Proof.
  intros Hh. rewrite channel_scan_elem. split.
  - intros (i & line & -> & H1 & H2). split; [lia|]. exists line.
    split; [|exact H2]. unfold line_at.
    replace (0 <? h + 1 + Z.of_nat i) with true by (symmetry; apply Z.ltb_lt; lia).
    rewrite lookup_drop in H1.
    now replace (Z.to_nat (h + 1 + Z.of_nat i - 1)) with (Z.to_nat h + i)%nat by lia.
  - intros (Hn & line & H1 & H2). unfold line_at in H1.
    replace (0 <? n) with true in H1 by (symmetry; apply Z.ltb_lt; lia).
    exists (Z.to_nat (n - 1 - h)), line. repeat split; [lia| |exact H2].
    rewrite lookup_drop.
    now replace (Z.to_nat h + Z.to_nat (n - 1 - h))%nat with (Z.to_nat (n - 1)) by lia.
Qed.

(** X7. [get_sensor_channels]: when the header is not found the result is
    the empty frame. When it is found in row [h], the result is the list
    of the numbers of all lines after row [h], up to the end of the file,
    that contain [Channel] and do not contain [Data], in increasing
    order: a line containing [Data] is left out, but the scan does not stop
    at it. *)
Theorem get_sensor_channels_spec (doc : list str) (header : str) :
  let h := row_num (search_param_txt doc header) in
  (h <= 0 -> get_sensor_channels doc header = Some NoChannels)
  /\ (0 < h ->
      exists ls,
        get_sensor_channels doc header = Some (ChannelLines ls)
        /\ (forall i j x y,
              ls !! i = Some x -> ls !! j = Some y -> (i < j)%nat -> x < y)
        /\ forall n, n ∈ ls <->
             h < n /\ exists line, line_at doc n = Some line
                                   /\ channel_line line = true).
Proof.
  cbv zeta. rewrite get_sensor_channels_run. cbv zeta.
  split; intros Hh.
  - now replace (0 <? row_num (search_param_txt doc header)) with false
      by (symmetry; apply Z.ltb_ge; lia).
  - replace (0 <? row_num (search_param_txt doc header)) with true
      by (symmetry; apply Z.ltb_lt; lia).
    eexists. split; [reflexivity|]. split; [apply channel_scan_increasing|].
    intros n. apply channel_scan_lines. lia.
Qed.

Lemma contains_solid (needle s : str) (c : char) (needle' : str) :
  needle = c :: needle' ->
  py_isspace c = false ->
  contains needle s = true ->
  ~ blank s.
Proof.
  intros -> Hc H. apply contains_spec in H as (pre & post & ->).
  unfold blank, strip. cbn [app].
  rewrite (lstrip_app_solid _ _ _ Hc).
  destruct (lstrip pre) as [|x xs] eqn:E.
  - cbn [app]. change (c :: needle' ++ post) with ([] ++ c :: needle' ++ post).
    now rewrite (rstrip_app_solid _ _ _ Hc).
  - rewrite (rstrip_app_solid _ _ _ Hc). discriminate.
Qed.

Lemma channel_line_solid (line : str) : channel_line line = true -> ~ blank line.
Proof.
  unfold channel_line. intros H. apply andb_true_iff in H as [H _].
  now apply (contains_solid PARAM_CHANNEL line 67%N (cp "hannel")).
Qed.

Lemma first_blank (lines : list str) :
  Forall (fun l => ~ blank l) lines
  \/ exists block stop rest,
       lines = block ++ stop :: rest
       /\ Forall (fun l => ~ blank l) block /\ blank stop.
Proof.
  induction lines as [|l lines IH]; [left; constructor|].
  destruct (decide (strip l = [])) as [Hl|Hl].
  - right. exists [], l, lines. repeat split; [constructor|exact Hl].
  - destruct IH as [IH|(block & stop & rest & -> & Hb & Hs)].
    + left. now constructor.
    + right. exists (l :: block), stop, rest. repeat split; [now constructor|exact Hs].
Qed.

Lemma dict_update_keys_prefix (kvs : list (str * str)) (d : py_dict) :
  exists more, dict_keys_of (dict_update d kvs) = dict_keys_of d ++ more.
Proof.
  revert d. induction kvs as [|[k v] kvs IH]; intros d.
  - exists []. now rewrite app_nil_r.
  - rewrite dict_update_cons. destruct (IH (dict_set k v d)) as (more & ->).
    rewrite dict_set_keys. destruct (decide _).
    + now exists more.
    + exists (k :: more). now rewrite <- app_assoc.
Qed.

Lemma dict_zip_cons (k v : str) (ks vs : list str) :
  dict_zip (k :: ks) (v :: vs) = dict_update [(k, v)] (combine ks vs).
Proof. reflexivity. Qed.

(** X8. The line numbers [get_sensor_channels] returns are start lines for
    [get_params_from_txt] with [skip_rows = 0]: for each of them the block
    read begins with the channel line itself. If no blank line follows,
    nothing is returned; otherwise the frame returned is not empty and its
    first column is the key of the channel line. *)
Theorem channel_block_from_channel_line (doc : list str) (header any : str)
    (ls : list Z) (n : Z) :
  get_sensor_channels doc header = Some (ChannelLines ls) ->
  n ∈ ls ->
  exists line,
    line_at doc n = Some line
    /\ ((Forall (fun l => ~ blank l) (drop (Z.to_nat (n - 1)) doc)
         /\ get_params_from_txt doc any n 0 = None)
        \/ exists df,
             get_params_from_txt doc any n 0 = Some df
             /\ df_empty df = false
             /\ head (columns df) = Some (line_key line)).
Proof.
  intros Hch Hn. rewrite get_sensor_channels_run in Hch. cbv zeta in Hch.
  destruct (0 <? row_num (search_param_txt doc header)) eqn:Hh; [|discriminate].
  apply Z.ltb_lt in Hh. injection Hch as <-.
  apply channel_scan_lines in Hn as (Hlt & line & Hline & Hcl); [|lia].
  exists line. split; [exact Hline|].
  assert (Hpos : 0 < n) by lia.
  assert (Hstart : start_row doc any n = n).
  { unfold start_row. now replace (n =? 0) with false by (symmetry; apply Z.eqb_neq; lia). }
  assert (Hread : lines_read doc n 0 = drop (Z.to_nat (n - 1)) doc).
  { unfold lines_read. f_equal. lia. }
  assert (Hget : get_params_from_txt doc any n 0 =
                 read_params 0 0 [] [] (drop (Z.to_nat (n - 1)) doc)).
  { rewrite get_params_from_txt_unfold by (rewrite ?Hstart; lia).
    now rewrite Hstart, Hread. }
  unfold line_at in Hline.
  replace (0 <? n) with true in Hline by (symmetry; apply Z.ltb_lt; lia).
  destruct (first_blank (drop (Z.to_nat (n - 1)) doc))
    as [Hall|(block & stop & rest & Hsplit & Hblock & Hstop)].
  - left. split; [exact Hall|]. rewrite Hget. now apply read_params_unterminated.
  - right. rewrite Hget, Hsplit.
    rewrite (read_params_block 0 [] [] _ _ _ Hblock Hstop). cbn [app].
    assert (Hhd : exists block', block = line :: block').
    { pose proof (lookup_drop doc (Z.to_nat (n - 1)) 0) as H0.
      rewrite Nat.add_0_r, Hline, Hsplit in H0.
      destruct block as [|b block']; simpl in H0.
      - injection H0 as ->. now apply channel_line_solid in Hcl.
      - injection H0 as ->. now exists block'. }
    destruct Hhd as (block' & ->).
    eexists. split; [reflexivity|].
    assert (Hkeys : exists more,
      columns (DataFrame_of_dict
                 (dict_zip (map line_key (line :: block'))
                           (map line_value (line :: block'))))
      = line_key line :: more).
    { rewrite columns_DataFrame_of_dict. cbn [map]. rewrite dict_zip_cons.
      destruct (dict_update_keys_prefix
                  (combine (map line_key block') (map line_value block'))
                  [(line_key line, line_value line)]) as (more & ->).
      now exists more. }
    destruct Hkeys as (more & Hkeys). split; [|now rewrite Hkeys].
    unfold df_empty. unfold columns in Hkeys.
    destruct (df_cols _) as [|c cs]; [discriminate Hkeys|]. reflexivity.
Qed.

Lemma channel_block_from_channel_line_witness :
  exists line,
    line_at ex_sensor_doc 7 = Some line
    /\ ((Forall (fun l => ~ blank l) (drop (Z.to_nat (7 - 1)) ex_sensor_doc)
         /\ get_params_from_txt ex_sensor_doc PARAM_CHANNEL 7 0 = None)
        \/ exists df,
             get_params_from_txt ex_sensor_doc PARAM_CHANNEL 7 0 = Some df
             /\ df_empty df = false
             /\ head (columns df) = Some (line_key line)).
Proof.
  apply (channel_block_from_channel_line ex_sensor_doc PARAM_SENS_HIST
           PARAM_CHANNEL [2; 7] 7).
  - reflexivity.
  - apply (bool_decide_unpack _); vm_compute; exact I.
Defined.

(** * Further properties of the database functions *)

(** ** What [create_alter_mssql_table] never does *)

Lemma grown_refl (t : table) : grown t t.
Proof.
  exists []. destruct t as [cols rows]. simpl. rewrite app_nil_r. f_equal.
  induction rows as [|r rows IH]; simpl; [reflexivity|].
  now rewrite app_nil_r, <- IH.
Qed.


Lemma preserved_refl (name : str) (st : store) : preserved name st st.
Proof.
  repeat split. intros t Ht. exists t. split; [exact Ht|apply grown_refl].
Qed.


Lemma preserved_logged (name : str) (s : stmt) (st : store) :
  preserved name st (logged s st).
Proof. exact (preserved_refl name st). Qed.

Lemma preserved_logged_l (name : str) (s : stmt) (st st' : store) :
  preserved name (logged s st) st' -> preserved name st st'.
Proof. intros H. exact H. Qed.

Section Preserved.

Variable upper : str -> str.






End Preserved.

(** ** What [insert_data_msssql] never does *)


Lemma find_label_lookup (label : str) (labels : list str) (j : nat) :
  find_label label labels = inr j -> labels !! j = Some label.
Proof.
  unfold find_label.
  destruct (index_where _ labels) as [i|] eqn:E; [|discriminate].
  destruct (bool_decide _); [discriminate|]. intros [= <-].
  apply index_where_Some in E as (x & Hx & Hp).
  apply bool_decide_eq_true_1 in Hp. now subst.
Qed.


Section InsertFacts.

Variable upper : str -> str.
Variable lib : Library.





End InsertFacts.


(** ** ALTER statements are committed one by one *)


Section AlterFacts.

Variable upper : str -> str.




End AlterFacts.


(** ** Repeating an insert *)

Section InsertAgain.

Variable upper : str -> str.
Variable lib : Library.






End InsertAgain.



(** ** The table [create_alter_mssql_table] creates *)

Lemma flag_pk_types (pk : str) (cols : list column) :
  map c_type (flag_pk pk cols) = map c_type cols.
Proof.
  unfold flag_pk. rewrite map_map. apply map_ext. intros c.
  now destruct (bool_decide (c_name c = pk)).
Qed.

Lemma created_cols_pk (data : DataFrame) (pk : str) (pk_flag : bool) (c : column) :
  c ∈ created_cols data pk pk_flag ->
  c_pk c = pk_flag && bool_decide (c_name c = pk).
Proof.
  unfold created_cols. destruct pk_flag; cbn [andb]; intros H.
  - unfold flag_pk in H. apply list_elem_of_fmap in H as (c0 & -> & H0).
    pose proof (base_cols_no_pk data) as Hb. rewrite Forall_forall in Hb.
    specialize (Hb c0 H0).
    destruct (bool_decide (c_name c0 = pk)) eqn:E; cbn [c_pk c_name].
    + now rewrite E.
    + now rewrite E.
  - pose proof (base_cols_no_pk data) as Hb. rewrite Forall_forall in Hb.
    now apply Hb.
Qed.

Section Creation2.

Variable upper : str -> str.

(** X14. For a table that does not exist, a non-empty batch that has the
    key column and column names that differ beyond letter case, on a
    reachable database, [create_alter_mssql_table] sends one CREATE TABLE
    and returns [True]. The new table has no rows and one column per batch
    column, in batch order and under the batch's names, of type Integer
    for int64, DateTime for datetime64, Float for float64 and String
    otherwise; a column is a primary key exactly when [pk_flag] is set and
    its name is the key column's, compared letter by letter. *)
Theorem create_table_shape (st : store) (name : str) (data : DataFrame)
    (pk : str) (pk_flag : bool) :
  st_online st = true ->
  st_tables st !! name = None ->
  df_empty data = false ->
  pk ∈ columns data ->
  NoDup (map upper (columns data)) ->
  exists cols st',
    create_alter_mssql_table upper name data pk pk_flag st = (Returned true, st')
    /\ st_tables st' = <[name := mkTable cols []]> (st_tables st)
    /\ st_log st' = st_log st ++ [Q_has_table name; S_create_table name cols]
    /\ map c_name cols = columns data
    /\ map c_type cols = map (fun c => create_type (snd c)) (df_cols data)
    /\ forall c, c ∈ cols -> c_pk c = pk_flag && bool_decide (c_name c = pk).
Proof.
  intros Hon Hno Hne Hpk Hnd.
  exists (created_cols data pk pk_flag). eexists.
  split; [now apply create_alter_absent_run|].
  split; [reflexivity|]. split.
  { cbn [with_table logged st_log]. now rewrite <- app_assoc. }
  split; [apply created_cols_names|]. split.
  - unfold created_cols. destruct pk_flag; [rewrite flag_pk_types|];
      unfold base_cols; now rewrite map_map.
  - apply created_cols_pk.
Qed.

End Creation2.

Lemma create_table_shape_witness :
  exists st',
    create_alter_mssql_table ascii_upper ex_name ex_batch ex_pk true ex_empty_store
      = (Returned true, st')
    /\ st_tables st' !! ex_name =
         Some (mkTable [mkColumn (cp "Timestamp") T_DateTime true;
                        mkColumn (cp "Val1") T_Integer false] []).
Proof.
  destruct (create_table_shape ascii_upper ex_empty_store ex_name ex_batch
              ex_pk true) as (cols & st' & Hrun & Htab & _).
  - reflexivity.
  - reflexivity.
  - reflexivity.
  - apply (bool_decide_unpack _); vm_compute; exact I.
  - apply (bool_decide_unpack _); vm_compute; exact I.
  - exists st'. split; [exact Hrun|].
    replace st' with (snd (create_alter_mssql_table ascii_upper ex_name ex_batch
                             ex_pk true ex_empty_store)) by now rewrite Hrun.
    vm_compute. reflexivity.
Defined.

(** * Properties of the assets *)

(** ** The files to process *)

(** X15. [raw_dir_files] returns the names of the listing that end in
    [.rld], in the order of the listing. The preview of the metadata is
    [rld_files[len(rld_files)-5:]]: the last five names when there are at
    least five, and all names when there are one or two; but for three
    names the start index is -2 and only the last two are shown, and for
    four names it is -1 and only the last one is shown. *)
Theorem raw_dir_files_preview (listing : list str) :
  let rld_files := fst (raw_dir_files listing) in
  let n := length rld_files in
  rld_files = List.filter (py_endswith (cp ".rld")) listing
  /\ snd (raw_dir_files listing) =
       if (n =? 0)%nat then None
       else Some (drop (if (5 <=? n)%nat then n - 5
                        else if (n <=? 2)%nat then 0 else 2 * n - 5)%nat rld_files).
Proof.
  cbv zeta. unfold raw_dir_files. cbn [fst snd].
  set (files := List.filter _ listing). split; [reflexivity|].
  destruct (Nat.eqb_spec (length files) 0) as [H0|H0].
  - now rewrite H0.
  - replace (0 <? Z.of_nat (length files)) with true
      by (symmetry; apply Z.ltb_lt; lia).
    f_equal. unfold py_slice_from. cbv zeta. f_equal.
    destruct (Nat.leb_spec 5 (length files));
      destruct (Nat.leb_spec (length files) 2);
      destruct (Z.ltb_spec (Z.of_nat (length files) - 5) 0); lia.
Qed.

Lemma save_rld_files_app (rows db : list UploadRecord) :
  save_rld_files (Some rows) db = db ++ rows.
Proof.
  unfold save_rld_files. revert db.
  induction rows as [|r rows IH]; intros db; cbn [fold_left].
  - now rewrite app_nil_r.
  - rewrite IH. now rewrite <- app_assoc.
Qed.

(** X16. [not_uploaded_files] keeps exactly the names of the raw
    directory that are not in the register, in their order. After
    [save_rld_files] has stored the frame of [upload_data_to_mmsql], no
    file of that frame is listed by [not_uploaded_files] again; when
    [upload_data_to_mmsql] returned nothing, the register is left as it
    was. *)
Theorem registered_files_are_skipped (raw : list str) (db reg : list UploadRecord) :
  (forall uploaded,
     not_uploaded_files raw uploaded =
       List.filter (fun f => negb (bool_decide (f ∈ uploaded))) raw)
  /\ (forall f,
        f ∈ map file_name reg ->
        f ∉ not_uploaded_files raw
              (uploaded_to_mssql_files (save_rld_files (Some reg) db)))
  /\ save_rld_files None db = db.
Proof.
  split; [|split; [|reflexivity]].
  - intros uploaded. unfold not_uploaded_files.
    apply (keep_left_only_merge_left (fun f : str => f)).
  - intros f Hf Hin. unfold not_uploaded_files in Hin.
    rewrite (keep_left_only_merge_left (fun f : str => f)) in Hin.
    apply list_elem_of_In, filter_In in Hin as [_ Hin].
    apply negb_true_iff, bool_decide_eq_false_1 in Hin. apply Hin.
    unfold uploaded_to_mssql_files. rewrite save_rld_files_app, map_app.
    apply elem_of_app. now right.
Qed.

(** ** Table names and file names *)

Lemma prefixb_app_short (p a b : str) :
  (length p <= length a)%nat -> prefixb p (a ++ b) = prefixb p a.
Proof.
  revert a. induction p as [|x p IH]; intros a Hlen; [now destruct a|].
  destruct a as [|y a]; simpl in *; [lia|].
  rewrite IH by lia. reflexivity.
Qed.

Lemma contains_cons_false (needle : str) (c : char) (s : str) :
  contains needle (c :: s) = false ->
  prefixb needle (c :: s) = false /\ contains needle s = false.
Proof. cbn [contains]. intros H. now apply orb_false_iff in H. Qed.

Lemma py_replace_first (old new pre post : str) :
  old <> [] ->
  contains old (pre ++ removelast old) = false ->
  py_replace old new (pre ++ old ++ post) = pre ++ new ++ py_replace old new post.
Proof.
  intros Hold. induction pre as [|c pre IH]; intros Hno.
  - cbn [app]. now apply py_replace_prefix.
  - cbn [app] in *. apply contains_cons_false in Hno as [Hp Hno].
    rewrite py_replace_cons; [now rewrite IH|exact Hold|].
    assert (Hsplit : old = removelast old ++ [List.last old 0%N])
      by now apply app_removelast_last.
    assert (Hlen : length old = S (length (removelast old))).
    { rewrite Hsplit at 1. rewrite length_app. simpl. lia. }
    replace (c :: pre ++ old ++ post)
      with ((c :: pre ++ removelast old) ++ [List.last old 0%N] ++ post).
    + rewrite prefixb_app_short; [exact Hp|]. simpl. rewrite length_app. lia.
    + cbn [app]. rewrite <- app_assoc. do 2 f_equal.
      transitivity ((removelast old ++ [List.last old 0%N]) ++ post);
        [now rewrite <- app_assoc|now rewrite <- Hsplit].
Qed.

Section FileNames.

Variable read_txt : str -> option (list str).

Lemma files_tables_loop_rows (P : FileTable -> Prop) (txt_files : list str)
    (acc rows : list FileTable) :
  (forall txt doc,
     txt ∈ txt_files ->
     read_txt txt = Some doc ->
     param_value (search_param_txt doc LOGGER_SITE_NUM) <> [] ->
     P (mkFileTable (py_replace (cp "_meas.txt") (cp ".rld") txt) txt
          (MSSQL_DATA_TABLE_NAME ++ [UNDERSCORE]
             ++ param_value (search_param_txt doc LOGGER_SITE_NUM)))) ->
  Forall P acc ->
  files_tables_loop read_txt acc txt_files = Some rows ->
  Forall P rows.
Proof.
  revert acc. induction txt_files as [|txt rest IH]; intros acc HP Hacc;
    cbn [files_tables_loop].
  - now intros [= <-].
  - unfold search_param_file. destruct (read_txt txt) as [doc|] eqn:Hdoc;
      [|discriminate].
    cbv zeta. destruct (bool_decide _) eqn:E; cbn [negb].
    + apply IH; [|exact Hacc]. intros t d Ht. apply HP. now apply elem_of_cons; right.
    + apply bool_decide_eq_false_1 in E. apply IH.
      * intros t d Ht. apply HP. now apply elem_of_cons; right.
      * apply Forall_app. split; [exact Hacc|]. constructor; [|constructor].
        apply HP; [now apply elem_of_cons; left|exact Hdoc|exact E].
Qed.

(** X17. Every row of the frame [nrg_files_n_tables] returns belongs to a
    file of the listing whose name ends in [.txt] and in which a line
    contains [Site Number:]. Its table name is [NRG_Tower_SN_] followed by
    the value found, which is not empty, and it holds no space character.
    When the text file is named [base_meas.txt] and [_meas.txt] occurs
    nowhere else in the name, the file registered for it is [base.rld]. *)
Theorem nrg_files_n_tables_rows (listing : list str) (rows : list FileTable) :
  nrg_files_n_tables read_txt listing = Some rows ->
  Forall
    (fun row =>
       txt_fname row ∈ listing
       /\ py_endswith (cp ".txt") (txt_fname row) = true
       /\ (exists doc v,
             read_txt (txt_fname row) = Some doc
             /\ 0 < row_num (search_param_txt doc LOGGER_SITE_NUM)
             /\ v = param_value (search_param_txt doc LOGGER_SITE_NUM)
             /\ v <> []
             /\ table_name row = cp "NRG_Tower_SN_" ++ v)
       /\ (SPACE ∉ table_name row)
       /\ (forall base,
             txt_fname row = base ++ cp "_meas.txt" ->
             contains (cp "_meas.txt") (base ++ cp "_meas.tx") = false ->
             rld_fname row = base ++ cp ".rld"))
    rows.
Proof.
  unfold nrg_files_n_tables. cbv zeta.
  apply files_tables_loop_rows; [|constructor].
  intros txt doc Htxt Hdoc Hv. cbn [txt_fname table_name rld_fname].
  apply list_elem_of_In, filter_In in Htxt as [Hin Hend].
  destruct (search_param_txt_value doc LOGGER_SITE_NUM) as (Hspace & _ & Hrow).
  split; [now apply list_elem_of_In|]. split; [exact Hend|]. split; [|split].
  - exists doc, (param_value (search_param_txt doc LOGGER_SITE_NUM)).
    repeat split; [exact Hdoc|now apply Hrow|exact Hv].
  - intros H. apply elem_of_app in H as [H|H].
    + revert H. apply (bool_decide_unpack _). vm_compute. exact I.
    + apply elem_of_app in H as [H|H]; [|contradiction].
      apply list_elem_of_singleton in H. discriminate H.
  - intros base -> Hno.
    pose proof (py_replace_first (cp "_meas.txt") (cp ".rld") base []) as H.
    rewrite !app_nil_r in H. apply H; [discriminate|exact Hno].
Qed.

End FileNames.

(** ** [get_dataframe_txt] and [upload_data_to_mmsql] *)

Section Upload.

Variable read_txt : str -> option (list str).
Variable read_csv : str -> Z -> option DataFrame.
Variable to_datetime : list value -> option (list value).
Variable now : nat -> Z.
Variable upper : str -> str.
Variable lib : Library.

(** X18. [get_dataframe_txt] returns the empty frame, without reading the
    table, when no line of the file contains [Timestamp]. A frame it
    returns that is not empty is the frame read from the file with its
    column labels unchanged, and [Timestamp] is one of them: the batch
    handed to [create_alter_mssql_table] always has the key column. *)
Theorem get_dataframe_txt_key_column (txt_file : str) :
  (forall doc,
     read_txt txt_file = Some doc ->
     (forall l, l ∈ doc -> ~ is_substring DATA_START_WORD l) ->
     get_dataframe_txt read_txt read_csv to_datetime txt_file = Some empty_DataFrame)
  /\ (forall df,
        get_dataframe_txt read_txt read_csv to_datetime txt_file = Some df ->
        df_empty df = false ->
        (DATA_TABLE_PK ∈ columns df)
        /\ exists doc nrg_df,
             read_txt txt_file = Some doc
             /\ read_csv txt_file
                  (row_num (search_param_txt doc DATA_START_WORD) - 1) = Some nrg_df
             /\ columns df = columns nrg_df).
Proof.
  unfold get_dataframe_txt, search_param_file. split.
  - intros doc -> Habs. unfold search_param_txt.
    rewrite search_lines_absent; [reflexivity|].
    apply Forall_forall. intros l Hl. apply contains_false_spec. now apply Habs.
  - intros df. destruct (read_txt txt_file) as [doc|]; [|discriminate].
    destruct (0 <? row_num (search_param_txt doc DATA_START_WORD));
      [|now intros [= <-]].
    destruct (read_csv txt_file _) as [nrg_df|] eqn:Hcsv; [|discriminate].
    destruct (bool_decide (DATA_TABLE_PK ∈ columns nrg_df)) eqn:Hpk;
      [|now intros [= <-]].
    apply bool_decide_eq_true_1 in Hpk.
    destruct (find_label DATA_TABLE_PK (columns nrg_df)) as [e|j] eqn:Hj;
      [discriminate|].
    destruct (to_datetime _) as [stamps|]; [|discriminate].
    intros [= <-] _.
    assert (Hcols : columns
                      (mkDataFrame
                         (<[j := (DATA_TABLE_PK, D_datetime64)]> (df_cols nrg_df))
                         (zip_with (fun r v => <[j := v]> r) (df_rows nrg_df) stamps))
                    = columns nrg_df).
    { unfold columns. cbn [df_cols].
      change (map fst ?l) with (fst <$> l).
      rewrite list_fmap_insert. cbn [fst]. apply list_insert_id.
      now apply find_label_lookup in Hj. }
    rewrite Hcols. split; [exact Hpk|]. now exists doc, nrg_df.
Qed.

Lemma upload_loop_app (pre post : list FileTable) (idx : nat)
    (rows_ins : option (option Z)) (files : list UploadRecord) (st : store) :
  upload_loop read_txt read_csv to_datetime now upper lib idx rows_ins files
    (pre ++ post) st =
  match upload_loop read_txt read_csv to_datetime now upper lib idx rows_ins files pre st with
  | (inl e, st') => (inl e, st')
  | (inr (rows_ins', files'), st') =>
      upload_loop read_txt read_csv to_datetime now upper lib (idx + length pre)
        rows_ins' files' post st'
  end.
Proof.
  revert idx rows_ins files st.
  induction pre as [|frow pre IH]; intros idx rows_ins files st.
  - cbn [app upload_loop length]. now rewrite Nat.add_0_r.
  - cbn [app upload_loop length].
    replace (idx + S (length pre))%nat with (S idx + length pre)%nat by lia.
    destruct (get_dataframe_txt _ _ _ _) as [d|]; [|reflexivity].
    destruct (negb (df_empty d)); [|apply IH].
    destruct (create_alter_mssql_table _ _ _ _ _ _) as [[[|]|e] s1];
      cbv beta iota; [| |reflexivity].
    + destruct (insert_data_msssql _ _ _ _ _ _ _ _) as [[[n|]|e] s2];
        cbv beta iota; [apply IH|reflexivity|reflexivity].
    + destruct rows_ins as [[n|]|]; [apply IH|reflexivity|reflexivity].
Qed.

Lemma upload_loop_names (frows : list FileTable) (idx : nat)
    (rows_ins rows_ins' : option (option Z)) (files files' : list UploadRecord)
    (st st' : store) :
  upload_loop read_txt read_csv to_datetime now upper lib idx rows_ins files frows st
    = (inr (rows_ins', files'), st') ->
  map file_name files' = map file_name files ++ map rld_fname frows
  /\ (Forall (fun r => uploaded_by r = UPLD_USER) files ->
      Forall (fun r => uploaded_by r = UPLD_USER) files').
Proof.
  revert idx rows_ins files st.
  induction frows as [|frow frows IH]; intros idx rows_ins files st.
  - cbn [upload_loop map]. intros [= <- <- <-]. now rewrite app_nil_r.
  - cbn [upload_loop map]. intros H.
    assert (Hrest :
      map file_name files' =
        map file_name (files ++ [mkUploadRecord (rld_fname frow) (now idx) UPLD_USER])
        ++ map rld_fname frows
      /\ (Forall (fun r => uploaded_by r = UPLD_USER)
                 (files ++ [mkUploadRecord (rld_fname frow) (now idx) UPLD_USER]) ->
          Forall (fun r => uploaded_by r = UPLD_USER) files')).
    { revert H.
      destruct (get_dataframe_txt _ _ _ _) as [d|]; [|discriminate].
      destruct (negb (df_empty d)); [|apply IH].
      destruct (create_alter_mssql_table _ _ _ _ _ _) as [[[|]|e] s1];
        cbv beta iota; [| |discriminate].
      - destruct (insert_data_msssql _ _ _ _ _ _ _ _) as [[[n|]|e] s2];
          cbv beta iota; [apply IH|discriminate|discriminate].
      - destruct rows_ins as [[n|]|]; [apply IH|discriminate|discriminate]. }
    destruct Hrest as [Hnames Huser]. split.
    + rewrite Hnames, map_app, <- app_assoc. reflexivity.
    + intros Hfiles. apply Huser. apply Forall_app. split; [exact Hfiles|].
      now repeat constructor.
Qed.

(** X19. When [upload_data_to_mmsql] returns a frame, it registers every
    file handed in, once and in order, under the user of the pipeline:
    also a file in which no data was found, a file of which no row was
    new, and a file whose schema step failed after an earlier file had
    been inserted. *)
Theorem upload_registers_every_file (frows : list FileTable) (st st' : store)
    (reg : list UploadRecord) :
  upload_data_to_mmsql read_txt read_csv to_datetime now upper lib frows st
    = (Some reg, st') ->
  map file_name reg = map rld_fname frows
  /\ Forall (fun r => uploaded_by r = UPLD_USER) reg.
Proof.
  unfold upload_data_to_mmsql.
  destruct (upload_loop _ _ _ _ _ _ _ _ _ frows st) as [[e|[v files]] s] eqn:E;
    [discriminate|].
  intros [= <- <-]. apply upload_loop_names in E as [Hnames Huser].
  split; [exact Hnames|]. apply Huser. constructor.
Qed.

End Upload.

(** ** [upload_data_to_mmsql]: what a failure does to the register *)

Section UploadFailures.

Variable read_txt : str -> option (list str).
Variable read_csv : str -> Z -> option DataFrame.
Variable to_datetime : list value -> option (list value).
Variable now : nat -> Z.
Variable upper : str -> str.
Variable lib : Library.

Lemma upload_loop_no_data (pre : list FileTable) (idx : nat)
    (rows_ins : option (option Z)) (files : list UploadRecord) (st : store) :
  Forall (fun g => exists d,
            get_dataframe_txt read_txt read_csv to_datetime (txt_fname g) = Some d
            /\ df_empty d = true) pre ->
  exists files',
    upload_loop read_txt read_csv to_datetime now upper lib idx rows_ins files pre st
      = (inr (rows_ins, files'), st).
Proof.
  intros H. revert idx files.
  induction H as [|g pre (d & Hd & He) _ IH]; intros idx files.
  - now exists files.
  - cbn [upload_loop]. rewrite Hd, He. cbn [negb]. apply IH.
Qed.

Lemma upload_loop_stays_bound (frows : list FileTable) (idx : nat) (n : Z)
    (rows_ins' : option (option Z)) (files files' : list UploadRecord)
    (st st' : store) :
  upload_loop read_txt read_csv to_datetime now upper lib idx (Some (Some n)) files
    frows st = (inr (rows_ins', files'), st') ->
  exists m, rows_ins' = Some (Some m).
Proof.
  revert idx n files st.
  induction frows as [|frow frows IH]; intros idx n files st.
  - cbn [upload_loop]. intros [= <- _ _]. now exists n.
  - cbn [upload_loop].
    destruct (get_dataframe_txt _ _ _ _) as [d|]; [|discriminate].
    destruct (negb (df_empty d)); [|apply IH].
    destruct (create_alter_mssql_table _ _ _ _ _ _) as [[[|]|e] s1];
      cbv beta iota; [| |discriminate].
    + destruct (insert_data_msssql _ _ _ _ _ _ _ _) as [[[k|]|e] s2];
        cbv beta iota; [apply IH|discriminate|discriminate].
    + apply IH.
Qed.

Lemma upload_loop_bound (frows : list FileTable) (idx : nat)
    (rows_ins rows_ins' : option (option Z)) (files files' : list UploadRecord)
    (st st' : store) :
  upload_loop read_txt read_csv to_datetime now upper lib idx rows_ins files frows st
    = (inr (rows_ins', files'), st') ->
  Exists (fun g => exists d,
            get_dataframe_txt read_txt read_csv to_datetime (txt_fname g) = Some d
            /\ df_empty d = false) frows ->
  exists n, rows_ins' = Some (Some n).
Proof.
  revert idx rows_ins files st.
  induction frows as [|frow frows IH]; intros idx rows_ins files st;
    [intros _ H; inversion H|].
  cbn [upload_loop]. intros H Hex. revert H.
  destruct (get_dataframe_txt _ _ _ _) as [d|] eqn:Hd; [|discriminate].
  destruct (df_empty d) eqn:He; cbn [negb].
  - intros H. apply (IH _ _ _ _ H).
    inversion Hex as [? ? (d' & Hd' & He')|]; subst; [|assumption].
    rewrite Hd in Hd'. injection Hd' as <-. congruence.
  - destruct (create_alter_mssql_table _ _ _ _ _ _) as [[[|]|e] s1];
      cbv beta iota; [| |discriminate].
    + destruct (insert_data_msssql _ _ _ _ _ _ _ _) as [[[n|]|e] s2];
        cbv beta iota; [apply upload_loop_stays_bound|discriminate|discriminate].
    + destruct rows_ins as [[n|]|];
        [apply upload_loop_stays_bound|discriminate|discriminate].
Qed.

(** X20. When the schema step fails for a file with data and no earlier
    file had data, [upload_data_to_mmsql] stops at this file and returns
    nothing: [rows_ins] is read before it was ever assigned. No file is
    registered, neither the earlier files without data nor the files that
    follow, which are not looked at. *)
Theorem upload_stops_at_first_schema_failure (pre : list FileTable)
    (f : FileTable) (post : list FileTable) (data : DataFrame) (st st1 : store) :
  Forall (fun g => exists d,
            get_dataframe_txt read_txt read_csv to_datetime (txt_fname g) = Some d
            /\ df_empty d = true) pre ->
  get_dataframe_txt read_txt read_csv to_datetime (txt_fname f) = Some data ->
  df_empty data = false ->
  create_alter_mssql_table upper (table_name f) (upload_batch f data)
    DATA_TABLE_PK true st = (Returned false, st1) ->
  upload_data_to_mmsql read_txt read_csv to_datetime now upper lib
    (pre ++ f :: post) st = (None, st1).
Proof.
  intros Hpre Hdata Hne Hct. unfold upload_data_to_mmsql.
  rewrite upload_loop_app.
  destruct (upload_loop_no_data pre 0 None [] st Hpre) as (files & ->).
  cbn [upload_loop]. rewrite Hdata, Hne. cbn [negb].
  unfold upload_batch in Hct. now rewrite Hct.
Qed.

(** X21. When the insert of a file fails in the database,
    [insert_data_msssql] returns nothing and the comparison
    [rows_ins > 0] raises: [upload_data_to_mmsql] stops and returns
    nothing. The files before it, whose rows are in the database by then,
    are not registered either, and the files after it are not looked
    at. *)
Theorem upload_stops_when_insert_fails (pre : list FileTable) (f : FileTable)
    (post : list FileTable) (data : DataFrame) (files : list UploadRecord)
    (st s0 s1 s2 : store) :
  upload_data_to_mmsql read_txt read_csv to_datetime now upper lib pre st
    = (Some files, s0) ->
  get_dataframe_txt read_txt read_csv to_datetime (txt_fname f) = Some data ->
  df_empty data = false ->
  create_alter_mssql_table upper (table_name f) (upload_batch f data)
    DATA_TABLE_PK true s0 = (Returned true, s1) ->
  insert_data_msssql upper lib (table_name f) (upload_batch f data)
    DATA_TABLE_PK (VStr []) [] s1 = (Returned None, s2) ->
  upload_data_to_mmsql read_txt read_csv to_datetime now upper lib
    (pre ++ f :: post) st = (None, s2).
Proof.
  unfold upload_data_to_mmsql. intros Hpre Hdata Hne Hct Hins.
  rewrite upload_loop_app.
  destruct (upload_loop _ _ _ _ _ _ _ _ _ pre st) as [[e|[v fs]] s] eqn:E;
    [discriminate|].
  injection Hpre as <- <-.
  cbn [upload_loop]. rewrite Hdata, Hne. cbn [negb].
  unfold upload_batch in Hct, Hins. now rewrite Hct, Hins.
Qed.

(** X22. When the schema step fails for a file with data after an earlier
    file with data went through, the stale value of [rows_ins] lets the
    loop go on: no row of the file is sent to the database, yet the file
    is registered like the others, so that [not_uploaded_files] will not
    list it again. *)
Theorem upload_registers_after_schema_failure (pre : list FileTable)
    (f : FileTable) (data : DataFrame) (files : list UploadRecord)
    (st s0 s1 : store) :
  upload_data_to_mmsql read_txt read_csv to_datetime now upper lib pre st
    = (Some files, s0) ->
  Exists (fun g => exists d,
            get_dataframe_txt read_txt read_csv to_datetime (txt_fname g) = Some d
            /\ df_empty d = false) pre ->
  get_dataframe_txt read_txt read_csv to_datetime (txt_fname f) = Some data ->
  df_empty data = false ->
  create_alter_mssql_table upper (table_name f) (upload_batch f data)
    DATA_TABLE_PK true s0 = (Returned false, s1) ->
  upload_data_to_mmsql read_txt read_csv to_datetime now upper lib (pre ++ [f]) st
    = (Some (files ++ [mkUploadRecord (rld_fname f) (now (length pre)) UPLD_USER]),
       s1).
Proof.
  unfold upload_data_to_mmsql. intros Hpre Hex Hdata Hne Hct.
  rewrite upload_loop_app.
  destruct (upload_loop _ _ _ _ _ _ _ _ _ pre st) as [[e|[v fs]] s] eqn:E;
    [discriminate|].
  injection Hpre as <- <-.
  destruct (upload_loop_bound _ _ _ _ _ _ _ _ E Hex) as (n & ->).
  cbn [upload_loop]. rewrite Hdata, Hne. cbn [negb].
  unfold upload_batch in Hct. now rewrite Hct.
Qed.

End UploadFailures.

(** ** The sample files *)

Lemma nrg_files_n_tables_rows_witness :
  Forall
    (fun row =>
       txt_fname row ∈ ex_listing
       /\ py_endswith (cp ".txt") (txt_fname row) = true
       /\ (exists doc v,
             ex_read_txt (txt_fname row) = Some doc
             /\ 0 < row_num (search_param_txt doc LOGGER_SITE_NUM)
             /\ v = param_value (search_param_txt doc LOGGER_SITE_NUM)
             /\ v <> []
             /\ table_name row = cp "NRG_Tower_SN_" ++ v)
       /\ (SPACE ∉ table_name row)
       /\ (forall base,
             txt_fname row = base ++ cp "_meas.txt" ->
             contains (cp "_meas.txt") (base ++ cp "_meas.tx") = false ->
             rld_fname row = base ++ cp ".rld"))
    [ex_frow_a; ex_frow_b].
Proof.
  apply (nrg_files_n_tables_rows ex_read_txt ex_listing).
  vm_compute. reflexivity.
Defined.

Lemma upload_registers_every_file_witness :
  exists reg st',
    upload_data_to_mmsql ex_read_txt ex_read_csv ex_to_datetime ex_now ascii_upper ex_lib
      [ex_frow_a; ex_frow_b] ex_empty_store = (Some reg, st')
    /\ map file_name reg = [cp "a.rld"; cp "b.rld"].
Proof.
  exists [mkUploadRecord (cp "a.rld") 0 UPLD_USER;
          mkUploadRecord (cp "b.rld") 1 UPLD_USER].
  exists (snd (upload_data_to_mmsql ex_read_txt ex_read_csv ex_to_datetime ex_now
                 ascii_upper ex_lib [ex_frow_a; ex_frow_b] ex_empty_store)).
  assert (H : upload_data_to_mmsql ex_read_txt ex_read_csv ex_to_datetime ex_now
                ascii_upper ex_lib [ex_frow_a; ex_frow_b] ex_empty_store =
              (Some [mkUploadRecord (cp "a.rld") 0 UPLD_USER;
                     mkUploadRecord (cp "b.rld") 1 UPLD_USER],
               snd (upload_data_to_mmsql ex_read_txt ex_read_csv ex_to_datetime
                      ex_now ascii_upper ex_lib [ex_frow_a; ex_frow_b] ex_empty_store)))
    by (vm_compute; reflexivity).
  split; [exact H|].
  exact (proj1 (upload_registers_every_file ex_read_txt ex_read_csv ex_to_datetime
                  ex_now ascii_upper ex_lib _ _ _ _ H)).
Defined.

Lemma upload_stops_at_first_schema_failure_witness :
  fst (upload_data_to_mmsql ex_read_txt ex_read_csv ex_to_datetime ex_now
         ascii_upper ex_lib [ex_frow_b; ex_frow_a] ex_empty_store) = None.
Proof.
  pose proof (upload_stops_at_first_schema_failure ex_read_txt ex_read_csv
                ex_to_datetime ex_now ascii_upper ex_lib [] ex_frow_b [ex_frow_a]
                ex_case_batch ex_empty_store
                (snd (create_alter_mssql_table ascii_upper (table_name ex_frow_b)
                        (upload_batch ex_frow_b ex_case_batch) DATA_TABLE_PK true
                        ex_empty_store))) as H.
  cbn [app] in H. rewrite H; [reflexivity|constructor| | |];
    vm_compute; reflexivity.
Defined.

Lemma upload_stops_when_insert_fails_witness :
  fst (upload_data_to_mmsql ex_read_txt ex_read_csv ex_to_datetime ex_now
         ascii_upper ex_lib [ex_frow_a; ex_frow_c] ex_empty_store) = None
  /\ fst (upload_data_to_mmsql ex_read_txt ex_read_csv ex_to_datetime ex_now
            ascii_upper ex_lib [ex_frow_a] ex_empty_store)
     = Some [mkUploadRecord (cp "a.rld") 0 UPLD_USER].
Proof.
  set (s0 := snd (upload_data_to_mmsql ex_read_txt ex_read_csv ex_to_datetime
                    ex_now ascii_upper ex_lib [ex_frow_a] ex_empty_store)).
  set (s1 := snd (create_alter_mssql_table ascii_upper (table_name ex_frow_c)
                    (upload_batch ex_frow_c ex_dup_batch) DATA_TABLE_PK true s0)).
  set (s2 := snd (insert_data_msssql ascii_upper ex_lib (table_name ex_frow_c)
                    (upload_batch ex_frow_c ex_dup_batch) DATA_TABLE_PK (VStr [])
                    [] s1)).
  pose proof (upload_stops_when_insert_fails ex_read_txt ex_read_csv
                ex_to_datetime ex_now ascii_upper ex_lib [ex_frow_a] ex_frow_c []
                ex_dup_batch [mkUploadRecord (cp "a.rld") 0 UPLD_USER]
                ex_empty_store s0 s1 s2) as H.
  cbn [app] in H. split.
  - rewrite H; [reflexivity| | | | |]; vm_compute; reflexivity.
  - vm_compute. reflexivity.
Defined.

Lemma upload_registers_after_schema_failure_witness :
  fst (upload_data_to_mmsql ex_read_txt ex_read_csv ex_to_datetime ex_now
         ascii_upper ex_lib [ex_frow_a; ex_frow_b] ex_empty_store)
  = Some [mkUploadRecord (cp "a.rld") 0 UPLD_USER;
          mkUploadRecord (cp "b.rld") 1 UPLD_USER].
Proof.
  set (s0 := snd (upload_data_to_mmsql ex_read_txt ex_read_csv ex_to_datetime
                    ex_now ascii_upper ex_lib [ex_frow_a] ex_empty_store)).
  set (s1 := snd (create_alter_mssql_table ascii_upper (table_name ex_frow_b)
                    (upload_batch ex_frow_b ex_case_batch) DATA_TABLE_PK true s0)).
  pose proof (upload_registers_after_schema_failure ex_read_txt ex_read_csv
                ex_to_datetime ex_now ascii_upper ex_lib [ex_frow_a] ex_frow_b
                ex_case_batch [mkUploadRecord (cp "a.rld") 0 UPLD_USER]
                ex_empty_store s0 s1) as H.
  cbn [app] in H. rewrite H; [reflexivity| | | | |].
  - vm_compute. reflexivity.
  - left. exists ex_batch. split; vm_compute; reflexivity.
  - vm_compute. reflexivity.
  - reflexivity.
  - vm_compute. reflexivity.
Defined.
